(** * The MCP tool subsystem: registry, loader and manager

    A shallow embedding of [app/mcp/tool_registry.py], [app/mcp/tool_loader.py],
    [app/mcp/tool_manager.py], [app/mcp/base_tool.py] and
    [app/mcp/tools/current_date.py].

    Python dictionaries are finite maps ([gmap string _]); the objects the
    program mutates (the registry's document, the loader's cache, the
    manager's tool mapping) live in an explicit state that is threaded by a
    small state-and-exception monad; what the program reads from outside
    (files, environment variables, the clock, importable modules) is a
    [World] passed to every operation. *)

From Stdlib Require Import ZArith QArith Ascii String List.
From stdpp Require Import base option gmap strings list fin_maps.
From stdpp Require Import pretty.

#[local] Set Warnings "-register-all".
#[local] Open Scope string_scope.
#[local] Open Scope Z_scope.

(** ** Python strings *)

(** [s.startswith(p)] *)
Definition startswith (p s : string) : bool := String.prefix p s.

(** [s.endswith(p)] *)
Definition endswith (p s : string) : bool :=
  (String.length p <=? String.length s)%nat
  && String.eqb (substring (String.length s - String.length p) (String.length p) s) p.

(** [s[i:-j]] for non-negative literals [i] and [j] with [0 < j]. *)
Definition slice_from_to_last (i j : nat) (s : string) : string :=
  substring i (String.length s - j - i) s.

Definition is_lower_ascii (c : ascii) : bool :=
  (97 <=? nat_of_ascii c)%nat && (nat_of_ascii c <=? 122)%nat.

Definition is_upper_ascii (c : ascii) : bool :=
  (65 <=? nat_of_ascii c)%nat && (nat_of_ascii c <=? 90)%nat.

Definition ascii_upper (c : ascii) : ascii :=
  if is_lower_ascii c then ascii_of_nat (nat_of_ascii c - 32) else c.

Definition ascii_lower (c : ascii) : ascii :=
  if is_upper_ascii c then ascii_of_nat (nat_of_ascii c + 32) else c.

Fixpoint str_map (f : ascii -> ascii) (s : string) : string :=
  match s with
  | EmptyString => EmptyString
  | String c r => String (f c) (str_map f r)
  end.

(** [s.lower()] on ASCII text *)
Definition lower (s : string) : string := str_map ascii_lower s.

(** [s.capitalize()]: first character upper-cased, the rest lower-cased. *)
Definition capitalize (s : string) : string :=
  match s with
  | EmptyString => EmptyString
  | String c r => String (ascii_upper c) (lower r)
  end.

(** [s.split(sep)] for a one-character separator: the current word is
    accumulated in [cur]. *)
Fixpoint split_on (sep : ascii) (cur : string) (s : string) : list string :=
  match s with
  | EmptyString => [cur]
  | String c r =>
      if Ascii.eqb c sep then cur :: split_on sep EmptyString r
      else split_on sep (cur +:+ String c EmptyString) r
  end.

(** [''.join(ws)] *)
Definition join (ws : list string) : string :=
  fold_right String.append EmptyString ws.

(** ** Values

    What [Any] ranges over in this subsystem: the values a JSON document
    holds, which are also what tools return. *)

Inductive value :=
| VNone
| VBool (b : bool)
| VInt (n : Z)
| VFloat (q : Q)
| VStr (s : string)
| VList (l : list value)
| VDict (d : gmap string value).

(** ** Exceptions

    Instances of Python's [Exception], the class of every error a program
    raises and the class that [except Exception] handles; [exn_msg] is
    [str(e)].  The signals below [BaseException] that are not errors
    ([KeyboardInterrupt], [SystemExit], a task's cancellation) end the
    request or the process and are not part of this model. *)

Inductive exn_class :=
| JSONDecodeError
| OSError
| ValidationError
| TypeError
| AttributeError
| ModuleNotFoundError
| OtherError (name : string).

Record exn := { exn_cls : exn_class; exn_msg : string }.

Definition is_JSONDecodeError (e : exn) : bool :=
  match exn_cls e with JSONDecodeError => true | _ => false end.

(** ** Logging and the trace

    A logger call is recorded with the module whose [logger] it is, its
    level, the text of its f-string with [{}] for each hole, and the values
    that fill the holes.  Besides the log lines the trace records the two
    calls of [load_tool] that the caching claims count, each with the tool
    name it is made for: [self.registry.interpolate_config(...)] and the
    construction [tool_class(config)]. *)

Inductive level := DEBUG | INFO | WARNING | ERROR.

(** [get_logger(__name__)] of each module; every tool module counts as
    [tools_logger]. *)
Inductive logger := registry_logger | loader_logger | manager_logger | tools_logger.

Record log_line := {
  ll_level : level;
  ll_template : string;
  ll_args : list value }.

Inductive event :=
| Log (src : logger) (l : level) (template : string) (args : list value)
| CallInterpolate (tool_name : string)
| CallConstruct (tool_name : string).

Definition tool_log (ln : log_line) : event :=
  Log tools_logger (ll_level ln) (ll_template ln) (ll_args ln).

(** ** The clock *)

Record datetime := {
  year : Z; month : Z; day : Z;
  hour : Z; minute : Z; second : Z; microsecond : Z }.

(** What a tool can read of the process while it runs: the environment
    variables, [datetime.utcnow()], and the platform's conversion of a naive
    datetime to a POSIX timestamp ([datetime.timestamp]). *)
Record ambient := {
  environ : gmap string string;
  utcnow : datetime;
  posix_timestamp : datetime -> Z }.

(** ** Tools *)

Inductive outcome :=
| Returns (v : value)
| Raises (e : exn).

(** A tool class, as the loader and the manager use one: its [__name__],
    its constructor applied to the interpolated config (the log lines it
    writes, and the exception it raises if it fails), its [execute] applied to
    [self.config] and the keyword arguments, and its [get_schema] when the
    class has one. *)
Record tool_class := {
  tc_name : string;
  tc_init : gmap string value -> list log_line * option exn;
  tc_execute : gmap string value -> gmap string value -> ambient -> list log_line * outcome;
  tc_get_schema : option (gmap string value) }.

(** A live tool object; [obj_id] is its identity ([id(tool)]). *)
Record tool_instance := {
  obj_id : nat;
  cls : tool_class;
  self_config : gmap string value }.

(** What the manager's mapping can hold: a tool object, or the coroutine
    object that calling the [async def load_tool] without awaiting it makes. *)
Inductive pyobj :=
| Instance (t : tool_instance)
| Coroutine_load_tool (tool_name : string).

(** ** The registry document

    The pydantic models of [tool_registry.py]; [tc_config] is the field
    [config] of [ToolConfig] (the name [config] is the registry's field
    below). *)

Record ToolConfig := {
  enabled : bool;
  description : string;
  tc_config : gmap string value }.

Record MCPConfig := {
  version : string;
  tools : gmap string ToolConfig }.

(** ** The world outside the process *)

(** A file at the configuration path, by what [open] and [json.load] make of
    it. *)
Inductive file :=
| Unreadable (msg : string)
| NotJson (msg : string)
| Json (v : value).

Record World := {
  files : gmap string file;
  package_dir : string;
  sys_modules : gmap string (gmap string tool_class);
  amb : ambient }.

(** ** Program state *)

Record ToolRegistry := {
  config_path : string;
  config : MCPConfig }.

Record ToolLoader := {
  _tool_cache : gmap string tool_instance }.

(** [self.loader.registry] and [self.registry] are one object: the loader's
    operations read the registry of the manager that owns them. *)
Record ToolManager := {
  registry : ToolRegistry;
  loader : ToolLoader;
  _tools : option (gmap string pyobj) }.

Record heap := {
  next_id : nat;
  trace : list event }.

(** ** The monad: state [S], the heap, and exceptions *)

Inductive result (A : Type) :=
| Ok (a : A)
| Raise (e : exn).
Arguments Ok {A} a.
Arguments Raise {A} e.

Definition M (S A : Type) : Type := S -> heap -> result A * S * heap.

Definition ret {S A} (a : A) : M S A := fun s h => (Ok a, s, h).

Definition bind {S A B} (m : M S A) (k : A -> M S B) : M S B :=
  fun s h =>
    match m s h with
    | (Ok a, s', h') => k a s' h'
    | (Raise e, s', h') => (Raise e, s', h')
    end.

Definition raise {S A} (e : exn) : M S A := fun s h => (Raise e, s, h).

(** [try: body  except Exception as e: handler(e)] *)
Definition try_except {S A} (body : M S A) (handler : exn -> M S A) : M S A :=
  fun s h =>
    match body s h with
    | (Ok a, s', h') => (Ok a, s', h')
    | (Raise e, s', h') => handler e s' h'
    end.

Definition get {S} : M S S := fun s h => (Ok s, s, h).
Definition put {S} (s : S) : M S unit := fun _ h => (Ok tt, s, h).
Definition emit {S} (ev : event) : M S unit :=
  fun s h => (Ok tt, s, {| next_id := next_id h; trace := trace h ++ [ev] |}).
Definition emits {S} (evs : list event) : M S unit :=
  fun s h => (Ok tt, s, {| next_id := next_id h; trace := trace h ++ evs |}).
Definition log_from {S} (src : logger) (l : level) (template : string)
    (args : list value) : M S unit :=
  emit (Log src l template args).

(** A value or an exception computed without touching the state. *)
Definition lift {S A} (r : result A) : M S A := fun s h => (r, s, h).

(** Allocation of a fresh object identity. *)
Definition fresh_id {S} : M S nat :=
  fun s h => (Ok (next_id h), s, {| next_id := Datatypes.S (next_id h); trace := trace h |}).

(** Running an operation of a component [T] inside the state [S] that holds it. *)
Definition zoom {S T A} (proj : S -> T) (upd : T -> S -> S) (m : M T A) : M S A :=
  fun s h =>
    match m (proj s) h with
    | (r, t', h') => (r, upd t' s, h')
    end.

Declare Scope m_scope.
Delimit Scope m_scope with m.
Notation "'do' x <- c1 ; c2" := (bind c1 (fun x => c2))
  (at level 10, x name, c1 at level 100, c2 at level 200) : m_scope.
Notation "'run' c1 ; c2" := (bind c1 (fun _ => c2))
  (at level 10, c1 at level 100, c2 at level 200) : m_scope.
#[local] Open Scope m_scope.
#[local] Open Scope list_scope.

(** ** pydantic validation of the document (pydantic 2, lax mode)

    [bool] fields accept a boolean, the integers and floats 0 and 1, and the
    strings below whatever their case; [str] fields accept strings only;
    [Dict] fields accept JSON objects.  A field without a default is
    required, and keys the model does not declare are ignored. *)

Definition bool_true_strings : list string := ["1"; "on"; "t"; "true"; "y"; "yes"].
Definition bool_false_strings : list string := ["0"; "off"; "f"; "false"; "n"; "no"].

Definition validate_bool (v : value) : option bool :=
  match v with
  | VBool b => Some b
  | VInt n => if (n =? 0)%Z then Some false else if (n =? 1)%Z then Some true else None
  | VFloat q => if Qeq_bool q 0 then Some false else if Qeq_bool q 1 then Some true else None
  | VStr s =>
      if bool_decide (lower s ∈ bool_true_strings) then Some true
      else if bool_decide (lower s ∈ bool_false_strings) then Some false
      else None
  | _ => None
  end.

Definition validate_str (v : value) : option string :=
  match v with VStr s => Some s | _ => None end.

Definition validate_dict (v : value) : option (gmap string value) :=
  match v with VDict d => Some d | _ => None end.

(** A [ToolConfig] as pydantic validates a nested model from a JSON object. *)
Definition ToolConfig_validate (v : value) : option ToolConfig :=
  d ← validate_dict v;
  e ← d !! "enabled" ≫= validate_bool;
  ds ← d !! "description" ≫= validate_str;
  c ← match d !! "config" with
      | None => Some ∅
      | Some c => validate_dict c
      end;
  Some {| enabled := e; description := ds; tc_config := c |}.

Definition validate_tools (t : gmap string value) : option (gmap string ToolConfig) :=
  if bool_decide (map_Forall (fun _ v => is_Some (ToolConfig_validate v)) t)
  then Some (omap ToolConfig_validate t)
  else None.

(** [MCPConfig] applied to the unpacked [config_data]: unpacking anything
    but a mapping is a [TypeError]; a mapping that does not validate is a
    [ValidationError]. *)
Definition MCPConfig_new (config_data : value) : result MCPConfig :=
  match config_data with
  | VDict d =>
      let ver := match d !! "version" with
                 | None => Some "1.0"
                 | Some v => validate_str v
                 end in
      let ts := match d !! "tools" with
                | None => Some ∅
                | Some t => validate_dict t ≫= validate_tools
                end in
      match ver, ts with
      | Some ver, Some ts => Ok {| version := ver; tools := ts |}
      | _, _ => Raise {| exn_cls := ValidationError;
                         exn_msg := "validation error for MCPConfig" |}
      end
  | _ => Raise {| exn_cls := TypeError;
                  exn_msg := "MCPConfig() argument after ** must be a mapping" |}
  end.

(** [with open(path) as f: json.load(f)] on a file that exists. *)
Definition json_load (f : file) : result value :=
  match f with
  | Unreadable msg => Raise {| exn_cls := OSError; exn_msg := msg |}
  | NotJson msg => Raise {| exn_cls := JSONDecodeError; exn_msg := msg |}
  | Json v => Ok v
  end.

(** ** ToolRegistry ([tool_registry.py]) *)

Module Registry.

Definition log {S} := @log_from S registry_logger.

(** [self._load_config()]; it reads [self.config_path] only, which is the
    argument [path], so that [__init__] can run it before [self.config]
    exists. *)
Definition _load_config {S} (w : World) (path : string) : M S MCPConfig :=
  try_except
    (match files w !! path with
     | None =>
         run log WARNING "Config file not found: {}. Using empty config." [VStr path];
         ret {| version := "1.0"; tools := ∅ |}
     | Some f =>
         do config_data <- lift (json_load f);
         do config <- lift (MCPConfig_new config_data);
         run log INFO "Loaded MCP configuration with {} tools"
                 [VInt (Z.of_nat (size (tools config)))];
         ret config
     end)
    (fun e =>
       if is_JSONDecodeError e
       then run log ERROR "Failed to parse MCP config JSON: {}" [VStr (exn_msg e)];
            raise e
       else run log ERROR "Failed to load MCP config: {}" [VStr (exn_msg e)];
            raise e).

(** [ToolRegistry(config_path)] *)
Definition __init__ (w : World) (path : option string) : M unit ToolRegistry :=
  let config_path := match path with
                     | None => package_dir w +:+ "/mcp_config.json"
                     | Some p => p
                     end in
  do config <- _load_config w config_path;
  run log INFO "Tool registry initialized with config: {}" [VStr config_path];
  ret {| config_path := config_path; config := config |}.

Definition get_enabled_tools (self : ToolRegistry) : gmap string ToolConfig :=
  filter (fun kv => enabled kv.2 = true) (tools (config self)).

Definition get_tool_config (self : ToolRegistry) (tool_name : string) : option ToolConfig :=
  tools (config self) !! tool_name.

Definition is_tool_enabled (self : ToolRegistry) (tool_name : string) : bool :=
  match tools (config self) !! tool_name with
  | Some tool => enabled tool
  | None => false
  end.

Definition get_tool_description (self : ToolRegistry) (tool_name : string) : option string :=
  match tools (config self) !! tool_name with
  | Some tool => Some (description tool)
  | None => None
  end.

(** [os.getenv(name, default)] *)
Definition getenv (env : gmap string string) (name default : string) : string :=
  match env !! name with
  | Some x => x
  | None => default
  end.

(** The body of the loop of [interpolate_config], for one value. *)
Definition interpolate_value (env : gmap string string) (v : value) : value :=
  match v with
  | VStr s =>
      if startswith "${" s && endswith "}" s
      then let env_var := slice_from_to_last 2 1 s in
           VStr (getenv env env_var s)
      else v
  | _ => v
  end.

Definition interpolate_config (env : gmap string string)
    (tool_config : gmap string value) : gmap string value :=
  interpolate_value env <$> tool_config.

Definition reload_config (w : World) : M ToolRegistry unit :=
  do self <- get;
  do c <- _load_config w (config_path self);
  run put {| config_path := config_path self; config := c |};
  log INFO "Tool registry configuration reloaded" [].

End Registry.

(** ** BaseTool and CurrentDate ([base_tool.py], [tools/current_date.py]) *)

(** [BaseTool.__init__]: stores the config and logs; it never raises. *)
Definition BaseTool_init (name : string) (config : gmap string value)
    : list log_line * option exn :=
  ([{| ll_level := DEBUG;
       ll_template := "Tool '{}' initialized with config: {}";
       ll_args := [VStr name; VDict config] |}], None).

(** [BaseTool.get_schema] *)
Definition BaseTool_get_schema : gmap string value :=
  {[ "type" := VStr "object"; "properties" := VDict ∅; "required" := VList [] ]}.

Definition digit (n : Z) : ascii := ascii_of_nat (48 + Z.to_nat (n mod 10)).

Definition pad2 (n : Z) : string :=
  String (digit (n / 10)) (String (digit n) EmptyString).

Definition pad4 (n : Z) : string :=
  String (digit (n / 1000)) (String (digit (n / 100)) (pad2 n)).

Definition pad6 (n : Z) : string :=
  String (digit (n / 100000)) (String (digit (n / 10000)) (pad4 n)).

Definition is_leap (y : Z) : bool :=
  (y mod 4 =? 0) && (negb (y mod 100 =? 0) || (y mod 400 =? 0)).

Definition days_before_year (y : Z) : Z :=
  let y1 := y - 1 in y1 * 365 + y1 / 4 - y1 / 100 + y1 / 400.

Definition days_before_month (y m : Z) : Z :=
  nth (Z.to_nat (m - 1)) [0; 31; 59; 90; 120; 151; 181; 212; 243; 273; 304; 334] 0
  + (if (2 <? m) && is_leap y then 1 else 0).

Definition toordinal (d : datetime) : Z :=
  days_before_year (year d) + days_before_month (year d) (month d) + day d.

(** [d.weekday()], Monday being 0 *)
Definition weekday (d : datetime) : Z := (toordinal d + 6) mod 7.

Definition day_names : list string :=
  ["Monday"; "Tuesday"; "Wednesday"; "Thursday"; "Friday"; "Saturday"; "Sunday"].

Definition month_names : list string :=
  ["January"; "February"; "March"; "April"; "May"; "June"; "July";
   "August"; "September"; "October"; "November"; "December"].

(** [now.strftime("%Y-%m-%d")], for the four-digit years of [utcnow()] *)
Definition strftime_Y_m_d (d : datetime) : string :=
  pad4 (year d) +:+ "-" +:+ pad2 (month d) +:+ "-" +:+ pad2 (day d).

(** [now.strftime("%H:%M:%S")] *)
Definition strftime_H_M_S (d : datetime) : string :=
  pad2 (hour d) +:+ ":" +:+ pad2 (minute d) +:+ ":" +:+ pad2 (second d).

(** [now.strftime("%A, %B %d, %Y")] *)
Definition strftime_readable (d : datetime) : string :=
  nth (Z.to_nat (weekday d)) day_names "" +:+ ", "
  +:+ nth (Z.to_nat (month d - 1)) month_names "" +:+ " "
  +:+ pad2 (day d) +:+ ", " +:+ pad4 (year d).

(** [now.isoformat()] *)
Definition isoformat (d : datetime) : string :=
  strftime_Y_m_d d +:+ "T" +:+ strftime_H_M_S d
  +:+ (if microsecond d =? 0 then "" else "." +:+ pad6 (microsecond d)).

(** [format in [...]] *)
Definition format_in (format : value) (l : list string) : bool :=
  match format with
  | VStr s => bool_decide (s ∈ l)
  | _ => false
  end.

(** [CurrentDate.execute(self, format="full")]; a keyword other than
    [format] is a [TypeError] of the call. *)
Definition CurrentDate_execute (self_config kwargs : gmap string value) (a : ambient)
    : list log_line * outcome :=
  if bool_decide (dom kwargs ⊆ ({[ "format" ]} : gset string)) then
    let format := default (VStr "full") (kwargs !! "format") in
    let now := utcnow a in
    let result : gmap string value :=
      {[ "timestamp" := VStr (isoformat now);
         "unix_timestamp" := VInt (posix_timestamp a now) ]} in
    let result :=
      if format_in format ["full"; "date_only"]
      then <["date_readable" := VStr (strftime_readable now)]>
             (<["date" := VStr (strftime_Y_m_d now)]> result)
      else result in
    let result :=
      if format_in format ["full"; "time_only"]
      then <["time_with_tz" := VStr (strftime_H_M_S now +:+ " UTC")]>
             (<["time" := VStr (strftime_H_M_S now)]> result)
      else result in
    ([{| ll_level := INFO;
         ll_template := "CurrentDate tool executed with format: {}";
         ll_args := [format] |}],
     Returns (VDict result))
  else
    ([], Raises {| exn_cls := TypeError;
                   exn_msg := "CurrentDate.execute() got an unexpected keyword argument" |}).

Definition CurrentDate_get_schema : gmap string value :=
  {[ "type" := VStr "object";
     "properties" := VDict {[ "format" := VDict
        {[ "type" := VStr "string";
           "enum" := VList [VStr "full"; VStr "date_only"; VStr "time_only"; VStr "iso"];
           "description" := VStr "Format of the date/time output" ]} ]};
     "required" := VList [] ]}.

Definition CurrentDate : tool_class :=
  {| tc_name := "CurrentDate";
     tc_init := BaseTool_init "CurrentDate";
     tc_execute := CurrentDate_execute;
     tc_get_schema := Some CurrentDate_get_schema |}.

(** ** ToolLoader ([tool_loader.py]) *)

Module Loader.

Definition log {S} := @log_from S loader_logger.

Definition TOOL_IMPLEMENTATIONS : gmap string string :=
  {[ "google_search" := "app.mcp.tools.google_search";
     "sqlite" := "app.mcp.tools.sqlite_tool";
     "current_date" := "app.mcp.tools.current_date" ]}.

(** [ToolLoader(registry)] *)
Definition __init__ : M unit ToolLoader :=
  run log INFO "Tool loader initialized" [];
  ret {| _tool_cache := ∅ |}.

(** [importlib.import_module(module_path)] *)
Definition _import_module {S} (w : World) (module_path : string)
    : M S (gmap string tool_class) :=
  match sys_modules w !! module_path with
  | Some m => ret m
  | None => raise {| exn_cls := ModuleNotFoundError;
                     exn_msg := "No module named '" +:+ module_path +:+ "'" |}
  end.

Definition _to_pascal_case (snake_str : string) : string :=
  join (capitalize <$> split_on "_" EmptyString snake_str).

(** [tool_class(config)] *)
Definition construct {S} (tool_class : tool_class) (config : gmap string value)
    : M S tool_instance :=
  run emits (tool_log <$> (tc_init tool_class config).1);
  match (tc_init tool_class config).2 with
  | Some e => raise e
  | None =>
      do i <- fresh_id;
      ret {| obj_id := i; cls := tool_class; self_config := config |}
  end.

(** [self._tool_cache[tool_name] = tool_instance] *)
Definition cache_store (tool_name : string) (t : tool_instance) : M ToolManager unit :=
  do self <- get;
  put {| registry := registry self;
         loader := {| _tool_cache := <[tool_name := t]> (_tool_cache (loader self)) |};
         _tools := _tools self |}.

(** The body of the coroutine [load_tool(tool_name)]: what awaiting it runs. *)
Definition load_tool (w : World) (tool_name : string)
    : M ToolManager (option tool_instance) :=
  do self <- get;
  match _tool_cache (loader self) !! tool_name with
  | Some cached =>
      run log DEBUG "Tool '{}' loaded from cache" [VStr tool_name];
      ret (Some cached)
  | None =>
      if negb (Registry.is_tool_enabled (registry self) tool_name) then
        run log WARNING "Tool '{}' is not enabled" [VStr tool_name];
        ret None
      else
        try_except
          (match Registry.get_tool_config (registry self) tool_name with
           | None =>
               run log ERROR "Tool '{}' not found in registry" [VStr tool_name];
               ret None
           | Some tool_config =>
               run emit (CallInterpolate tool_name);
               let config :=
                 Registry.interpolate_config (environ (amb w)) (tc_config tool_config) in
               (* [if not module_path]: no entry; the entries are non-empty *)
               match TOOL_IMPLEMENTATIONS !! tool_name with
               | None =>
                   run log ERROR "No implementation found for tool '{}'" [VStr tool_name];
                   ret None
               | Some module_path =>
                   do module <- _import_module w module_path;
                   let class_name := _to_pascal_case tool_name in
                   match module !! class_name with
                   | None =>
                       run log ERROR "Tool class '{}' not found in {}"
                               [VStr class_name; VStr module_path];
                       ret None
                   | Some tool_class =>
                       run emit (CallConstruct tool_name);
                       do tool_instance <- construct tool_class config;
                       run log INFO "Tool '{}' loaded successfully" [VStr tool_name];
                       run cache_store tool_name tool_instance;
                       ret (Some tool_instance)
                   end
               end
           end)
          (fun e =>
             run log ERROR "Failed to load tool '{}': {}" [VStr tool_name; VStr (exn_msg e)];
             ret None)
  end.

(** [bool(obj)]: neither a tool object nor a coroutine object defines
    [__bool__] or [__len__]. *)
Definition truthy (o : pyobj) : bool :=
  match o with
  | Instance _ => true
  | Coroutine_load_tool _ => true
  end.

(** One iteration of the loop of [load_all_tools]: [self.load_tool(tool_name)]
    is called and not awaited, so [tool] is the coroutine object and the body
    of [load_tool] does not run. *)
Definition load_all_tools_step (tool_name : string) (_ : ToolConfig)
    (tools : gmap string pyobj) : gmap string pyobj :=
  let tool := Coroutine_load_tool tool_name in
  if truthy tool then <[tool_name := tool]> tools else tools.

Definition load_all_tools (w : World) : M ToolManager (gmap string pyobj) :=
  do self <- get;
  let enabled_tools := Registry.get_enabled_tools (registry self) in
  let tools := map_fold load_all_tools_step ∅ enabled_tools in
  run log INFO "Loaded {} tools" [VInt (Z.of_nat (size tools))];
  ret tools.

Definition clear_cache : M ToolManager unit :=
  do self <- get;
  run put {| registry := registry self;
             loader := {| _tool_cache := ∅ |};
             _tools := _tools self |};
  log INFO "Tool cache cleared" [].

End Loader.

(** ** ToolManager ([tool_manager.py]) *)

Record ToolResult := {
  success : bool;
  data : value;
  error : option string }.

Module Manager.

Definition log {S} := @log_from S manager_logger.

(** [ToolManager(config_path)] *)
Definition __init__ (w : World) (config_path : option string) : M unit ToolManager :=
  do registry <- Registry.__init__ w config_path;
  do loader <- Loader.__init__;
  run log INFO "Tool manager initialized" [];
  ret {| registry := registry; loader := loader; _tools := None |}.

Definition set_tools (ts : option (gmap string pyobj)) : M ToolManager unit :=
  do self <- get;
  put {| registry := registry self; loader := loader self; _tools := ts |}.

Definition initialize (w : World) : M ToolManager unit :=
  do ts <- Loader.load_all_tools w;
  run set_tools (Some ts);
  log INFO "Tool manager initialized with {} tools" [VInt (Z.of_nat (size ts))].

Definition get_tool_description (self : ToolManager) (tool_name : string) : option string :=
  Registry.get_tool_description (registry self) tool_name.

(** [await tool.execute] with the keyword arguments, on what the mapping holds: a coroutine
    object has no attribute [execute]. *)
Definition call_execute (w : World) (tool : pyobj) (kwargs : gmap string value)
    : M ToolManager value :=
  match tool with
  | Instance t =>
      run emits (tool_log <$> (tc_execute (cls t) (self_config t) kwargs (amb w)).1);
      match (tc_execute (cls t) (self_config t) kwargs (amb w)).2 with
      | Returns v => ret v
      | Raises e => raise e
      end
  | Coroutine_load_tool _ =>
      raise {| exn_cls := AttributeError;
               exn_msg := "'coroutine' object has no attribute 'execute'" |}
  end.

Definition execute_tool (w : World) (tool_name : string) (kwargs : gmap string value)
    : M ToolManager ToolResult :=
  try_except
    (do self <- get;
     run (match _tools self with
          | None => initialize w
          | Some _ => ret tt
          end);
     do self <- get;
     match _tools self with
     | None => raise {| exn_cls := TypeError;
                        exn_msg := "argument of type 'NoneType' is not iterable" |}
     | Some ts =>
         match ts !! tool_name with
         | None =>
             ret {| success := false; data := VNone;
                    error := Some ("Tool '" +:+ tool_name +:+ "' not found or not enabled") |}
         | Some tool =>
             run log INFO "Executing tool '{}' with args: {}" [VStr tool_name; VDict kwargs];
             do result <- call_execute w tool kwargs;
             run log INFO "Tool '{}' executed successfully" [VStr tool_name];
             ret {| success := true; data := result; error := None |}
         end
     end)
    (fun e =>
       run log ERROR "Error executing tool '{}': {}" [VStr tool_name; VStr (exn_msg e)];
       ret {| success := false; data := VNone; error := Some (exn_msg e) |}).

Definition _get_tool_schema (self : ToolManager) (tool_name : string) : gmap string value :=
  match _tools self with
  | None => ∅
  | Some ts =>
      match ts !! tool_name with
      | None => ∅
      | Some (Instance t) =>
          match tc_get_schema (cls t) with
          | Some schema => schema
          | None => ∅
          end
      | Some (Coroutine_load_tool _) => ∅
      end
  end.

(** The registry's [reload_config] runs on the manager's registry. *)
Definition reload_registry (w : World) : M ToolManager unit :=
  zoom registry
       (fun r self => {| registry := r; loader := loader self; _tools := _tools self |})
       (Registry.reload_config w).

Definition reload_config (w : World) : M ToolManager unit :=
  run reload_registry w;
  run Loader.clear_cache;
  run set_tools None;
  log INFO "Tool manager configuration reloaded" [].

End Manager.

(** ** The operations a caller can run, and the states they reach *)

Inductive op :=
| OpInitialize
| OpExecuteTool (tool_name : string) (kwargs : gmap string value)
| OpReloadConfig
| OpLoadTool (tool_name : string)
| OpLoadAllTools
| OpClearCache
| OpReloadRegistry.

(** One call on the manager, on its loader or on its registry; [OpLoadTool]
    is [await manager.loader.load_tool(tool_name)], and [OpReloadRegistry] is
    [manager.registry.reload_config()], the registry's own reload, which
    clears neither the cache nor the mapping. *)
Definition run_op (w : World) (o : op) : M ToolManager unit :=
  match o with
  | OpInitialize => Manager.initialize w
  | OpExecuteTool tool_name kwargs =>
      do _r <- Manager.execute_tool w tool_name kwargs; ret tt
  | OpReloadConfig => Manager.reload_config w
  | OpLoadTool tool_name => do _r <- Loader.load_tool w tool_name; ret tt
  | OpLoadAllTools => do _r <- Loader.load_all_tools w; ret tt
  | OpClearCache => Loader.clear_cache
  | OpReloadRegistry => Manager.reload_registry w
  end.

(** The states of a manager built by [ToolManager(config_path)] and then
    driven by any calls, each in whatever world it finds (the file, the
    environment and the clock may change between calls); a call that raises
    leaves the state it raised in. *)
Inductive reachable : ToolManager -> heap -> Prop :=
| reachable_new w path h0 m h :
    Manager.__init__ w path tt h0 = (Ok m, tt, h) ->
    reachable m h
| reachable_op w o m h r m' h' :
    reachable m h ->
    run_op w o m h = (r, m', h') ->
    reachable m' h'.

(** The states reached when the document is reloaded only through
    [ToolManager.reload_config], never by the registry's own
    [reload_config]. *)
Inductive managed : ToolManager -> heap -> Prop :=
| managed_new w path h0 m h :
    Manager.__init__ w path tt h0 = (Ok m, tt, h) ->
    managed m h
| managed_op w o m h r m' h' :
    managed m h ->
    o <> OpReloadRegistry ->
    run_op w o m h = (r, m', h') ->
    managed m' h'.

(** ** Notions the properties are stated with *)

(** The text [${NAME}]. *)
Definition placeholder (name : string) : string := "${" +:+ name +:+ "}".

(** The events a call added to the trace. *)
Definition new_events (h h' : heap) : list event :=
  drop (length (trace h)) (trace h').

(** A document that cannot be loaded: reading it, decoding it as JSON or
    validating it against the model raises. *)
Definition load_error (f : file) : option exn :=
  match json_load f with
  | Raise e => Some e
  | Ok v => match MCPConfig_new v with
            | Raise e => Some e
            | Ok _ => None
            end
  end.

Definition is_digit (c : ascii) : bool :=
  (48 <=? nat_of_ascii c)%nat && (nat_of_ascii c <=? 57)%nat.

(** The shape YYYY-MM-DD. *)
Definition is_YYYY_MM_DD (s : string) : bool :=
  match list_ascii_of_string s with
  | [y1; y2; y3; y4; d1; m1; m2; d2; a1; a2] =>
      is_digit y1 && is_digit y2 && is_digit y3 && is_digit y4
      && Ascii.eqb d1 "-" && is_digit m1 && is_digit m2
      && Ascii.eqb d2 "-" && is_digit a1 && is_digit a2
  | _ => false
  end.

(** The cache holds tools that the held document enables, and no others. *)
Definition cache_enabled (m : ToolManager) : Prop :=
  forall name t, _tool_cache (loader m) !! name = Some t ->
                 Registry.is_tool_enabled (registry m) name = true.

(** What [load_tool(name)] may add to the trace: calls made for [name], and
    no report, from the loader, of a tool config missing from the registry. *)
Definition load_event_ok (name : string) (ev : event) : Prop :=
  match ev with
  | CallInterpolate x => x = name
  | CallConstruct x => x = name
  | Log src l tmpl _ =>
      ~ (src = loader_logger /\ l = ERROR /\ tmpl = "Tool '{}' not found in registry")
  end.

Definition is_log (ev : event) : Prop :=
  match ev with
  | Log _ _ _ _ => True
  | _ => False
  end.

(** The mapping [execute_tool] works with: the held one, or the one that
    the implicit [initialize] builds. *)
Definition tools_in_use (m : ToolManager) : gmap string pyobj :=
  match _tools m with
  | Some ts => ts
  | None => map_fold Loader.load_all_tools_step ∅ (Registry.get_enabled_tools (registry m))
  end.

(** The three envelopes of [execute_tool]. *)
Definition not_found (tool_name : string) : ToolResult :=
  {| success := false; data := VNone;
     error := Some ("Tool '" +:+ tool_name +:+ "' not found or not enabled") |}.

Definition failed (e : exn) : ToolResult :=
  {| success := false; data := VNone; error := Some (exn_msg e) |}.

Definition succeeded (v : value) : ToolResult :=
  {| success := true; data := v; error := None |}.

Definition no_execute_attribute : exn :=
  {| exn_cls := AttributeError;
     exn_msg := "'coroutine' object has no attribute 'execute'" |}.

(** The manager's mapping holds enabled tools only. *)
Definition tools_enabled (m : ToolManager) : Prop :=
  forall ts name o, _tools m = Some ts -> ts !! name = Some o ->
                    Registry.is_tool_enabled (registry m) name = true.

Definition consistent (m : ToolManager) : Prop :=
  cache_enabled m /\ tools_enabled m.

(** The manager's mapping holds coroutine objects only, each the one of the
    un-awaited [load_tool] of its name. *)
Definition coroutines_only (m : ToolManager) : Prop :=
  forall ts name o, _tools m = Some ts -> ts !! name = Some o ->
                    o = Coroutine_load_tool name.


(** ** Example worlds and states *)

Definition empty_heap : heap := {| next_id := 0; trace := [] |}.

Definition default_path : string := "app/mcp/mcp_config.json".

Definition example_ambient : ambient :=
  {| environ := {[ "MY_VAR" := "secret" ]};
     utcnow := {| year := 2026; month := 11; day := 3;
                  hour := 9; minute := 5; second := 7; microsecond := 0 |};
     posix_timestamp := fun _ => 1793696707 |}.

Definition example_modules : gmap string (gmap string tool_class) :=
  {[ "app.mcp.tools.current_date" := {[ "CurrentDate" := CurrentDate ]} ]}.

Definition world_of (fs : gmap string file) : World :=
  {| files := fs;
     package_dir := "app/mcp";
     sys_modules := example_modules;
     amb := example_ambient |}.

Definition world_with (doc : file) : World := world_of {[ default_path := doc ]}.

(** No file at the configuration path. *)
Definition absent_world : World := world_of ∅.

(** The registry document of the end-to-end property. *)
Definition current_date_document : value :=
  VDict {[ "version" := VStr "1.0";
           "tools" := VDict {[ "current_date" :=
              VDict {[ "enabled" := VBool true;
                       "description" := VStr "d";
                       "config" := VDict ∅ ]} ]} ]}.

Definition current_date_world : World := world_with (Json current_date_document).

(** A document with a disabled tool. *)
Definition disabled_document : value :=
  VDict {[ "tools" := VDict {[ "current_date" :=
              VDict {[ "enabled" := VBool false;
                       "description" := VStr "d" ]} ]} ]}.

(** A document that enables a tool for which [TOOL_IMPLEMENTATIONS] has no
    entry. *)
Definition foo_document : value :=
  VDict {[ "tools" := VDict {[ "foo" :=
              VDict {[ "enabled" := VBool true;
                       "description" := VStr "no implementation";
                       "config" := VDict {[ "key" := VStr "${MY_VAR}" ]} ]} ]} ]}.

(** A document whose tool entry lacks the required [enabled] field. *)
Definition invalid_document : value :=
  VDict {[ "tools" := VDict {[ "current_date" :=
              VDict {[ "description" := VStr "d" ]} ]} ]}.

(** The manager that [ToolManager()] builds from a document with the tools
    [ts], and the heap it leaves when the document has [n] tools. *)
Definition manager_of (ts : gmap string ToolConfig) : ToolManager :=
  {| registry := {| config_path := default_path;
                    config := {| version := "1.0"; tools := ts |} |};
     loader := {| _tool_cache := ∅ |};
     _tools := None |}.

Definition started_heap (n : Z) : heap :=
  {| next_id := 0;
     trace := [Log registry_logger INFO "Loaded MCP configuration with {} tools" [VInt n];
               Log registry_logger INFO "Tool registry initialized with config: {}"
                   [VStr default_path];
               Log loader_logger INFO "Tool loader initialized" [];
               Log manager_logger INFO "Tool manager initialized" []] |}.

Definition current_date_manager : ToolManager :=
  manager_of {[ "current_date" :=
                  {| enabled := true; description := "d"; tc_config := ∅ |} ]}.

Definition disabled_manager : ToolManager :=
  manager_of {[ "current_date" :=
                  {| enabled := false; description := "d"; tc_config := ∅ |} ]}.

Definition foo_manager : ToolManager :=
  manager_of {[ "foo" :=
                  {| enabled := true; description := "no implementation";
                     tc_config := {[ "key" := VStr "${MY_VAR}" ]} |} ]}.

(** [current_date_manager] after [initialize()]: the mapping holds the
    coroutine object. *)
Definition current_date_initialized : ToolManager :=
  {| registry := registry current_date_manager;
     loader := loader current_date_manager;
     _tools := Some {[ "current_date" := Coroutine_load_tool "current_date" ]} |}.

(** [current_date_manager] after [await loader.load_tool("current_date")]. *)
Definition current_date_instance : tool_instance :=
  {| obj_id := 0; cls := CurrentDate; self_config := ∅ |}.

Definition current_date_loaded : ToolManager :=
  {| registry := registry current_date_manager;
     loader := {| _tool_cache := {[ "current_date" := current_date_instance ]} |};
     _tools := None |}.

Definition loaded_heap : heap :=
  {| next_id := 1;
     trace := trace (started_heap 1) ++
       [CallInterpolate "current_date"; CallConstruct "current_date";
        Log tools_logger DEBUG "Tool '{}' initialized with config: {}"
            [VStr "CurrentDate"; VDict ∅];
        Log loader_logger INFO "Tool '{}' loaded successfully" [VStr "current_date"]] |}.

(** The heap after [initialize()] on [current_date_manager]. *)
Definition initialized_heap : heap :=
  {| next_id := 0;
     trace := trace (started_heap 1) ++
       [Log loader_logger INFO "Loaded {} tools" [VInt 1];
        Log manager_logger INFO "Tool manager initialized with {} tools" [VInt 1]] |}.

(** [current_date_loaded] after [manager.registry.reload_config()] onto a
    document with the tools [ts]: the cache still holds the instance. *)
Definition stale_manager (ts : gmap string ToolConfig) : ToolManager :=
  {| registry := registry (manager_of ts);
     loader := loader current_date_loaded;
     _tools := None |}.

Definition stale_heap : heap :=
  {| next_id := 1;
     trace := trace loaded_heap ++
       [Log registry_logger INFO "Loaded MCP configuration with {} tools" [VInt 1];
        Log registry_logger INFO "Tool registry configuration reloaded" []] |}.

(** [current_date_loaded] after [clear_cache()], and after the next
    [await loader.load_tool("current_date")]. *)
Definition cleared_heap : heap :=
  {| next_id := 1;
     trace := trace loaded_heap ++ [Log loader_logger INFO "Tool cache cleared" []] |}.

Definition current_date_second_instance : tool_instance :=
  {| obj_id := 1; cls := CurrentDate; self_config := ∅ |}.

Definition current_date_loaded_again : ToolManager :=
  {| registry := registry current_date_manager;
     loader := {| _tool_cache := {[ "current_date" := current_date_second_instance ]} |};
     _tools := None |}.

Definition loaded_again_heap : heap :=
  {| next_id := 2;
     trace := trace cleared_heap ++
       [CallInterpolate "current_date"; CallConstruct "current_date";
        Log tools_logger DEBUG "Tool '{}' initialized with config: {}"
            [VStr "CurrentDate"; VDict ∅];
        Log loader_logger INFO "Tool '{}' loaded successfully" [VStr "current_date"]] |}.

(** A manager whose mapping holds the loaded instance, as an awaited
    [load_tool] would have put it there. *)
Definition current_date_awaited : ToolManager :=
  {| registry := registry current_date_manager;
     loader := loader current_date_loaded;
     _tools := Some {[ "current_date" := Instance current_date_instance ]} |}.

(** A test double: a tool class whose constructor succeeds and whose
    [execute] has the given outcome. *)
Definition double (out : outcome) : tool_class :=
  {| tc_name := "Double";
     tc_init := fun _ => ([], None);
     tc_execute := fun _ _ _ => ([], out);
     tc_get_schema := None |}.

Definition double_instance (out : outcome) : tool_instance :=
  {| obj_id := 0; cls := double out; self_config := ∅ |}.

(** The world of [current_date_world] with the double in the place of the
    class [CurrentDate]. *)
Definition double_world (out : outcome) : World :=
  {| files := {[ default_path := Json current_date_document ]};
     package_dir := "app/mcp";
     sys_modules := {[ "app.mcp.tools.current_date" := {[ "CurrentDate" := double out ]} ]};
     amb := example_ambient |}.

Definition date_only : gmap string value := {[ "format" := VStr "date_only" ]}.


(** * The rest of the tool subsystem and its callers

    [ToolManager.get_available_tools], the [GoogleSearch] tool, the service
    and the HTTP routes over the manager ([mcp_service.py],
    [features/chat/tools_route.py]) and the authentication middleware
    ([middleware/auth_middleware.py]). *)

(** ** Python values: [bool(v)] and [type(v).__name__] *)

Definition truthy_value (v : value) : bool :=
  match v with
  | VNone => false
  | VBool b => b
  | VInt n => negb (n =? 0)
  | VFloat q => negb (Qeq_bool q 0)
  | VStr s => negb (String.eqb s "")
  | VList l => negb (bool_decide (l = []))
  | VDict d => negb (bool_decide (dom d = ∅))
  end.

Definition type_name (v : value) : string :=
  match v with
  | VNone => "NoneType"
  | VBool _ => "bool"
  | VInt _ => "int"
  | VFloat _ => "float"
  | VStr _ => "str"
  | VList _ => "list"
  | VDict _ => "dict"
  end.

(** ** [ToolManager.get_available_tools] ([tool_manager.py]) *)

Record ToolInfo := {
  ti_name : string;
  ti_description : string;
  ti_enabled : bool;
  input_schema : gmap string value }.

(** One [ToolInfo] per enabled tool.  The order in which Python iterates a
    dict (insertion order) is not part of the finite maps of this model: the
    list comes in the order of [map_to_list]. *)
Definition get_available_tools (self : ToolManager) : list ToolInfo :=
  (fun kv : string * ToolConfig =>
     {| ti_name := kv.1;
        ti_description := description kv.2;
        ti_enabled := true;
        input_schema := Manager._get_tool_schema self kv.1 |})
  <$> map_to_list (Registry.get_enabled_tools (registry self)).

(** ** GoogleSearch ([tools/google_search.py]) *)

Module GoogleSearch.

Definition tool_line (l : level) (template : string) (args : list value) : log_line :=
  {| ll_level := l; ll_template := template; ll_args := args |}.

(** The mapping returned when the key is missing and when the body raises. *)
Definition failure (msg : string) : gmap string value :=
  {[ "success" := VBool false; "error" := VStr msg; "data" := VList [] ]}.

(** One element of ["data"], for [i] in [range(num_results)]. *)
Definition result_item (query : string) (i : nat) : value :=
  VDict {[ "title" := VStr ("Result " +:+ pretty (Z.of_nat i + 1)%Z +:+ " for '" +:+ query +:+ "'");
           "url" := VStr ("https://example.com/result" +:+ pretty (Z.of_nat i + 1)%Z);
           "snippet" := VStr ("This is a sample search result for '" +:+ query +:+ "'") ]}.

(** [min(num_results, max_results)] for an [int] and whatever the config
    holds: the smaller object, or the [TypeError] of the comparison
    [max_results < num_results]. *)
Definition min_results (num_results : Z) (max_results : value) : result value :=
  match max_results with
  | VInt m => Ok (if m <? num_results then VInt m else VInt num_results)
  | VBool b => Ok (if (if b then 1 else 0) <? num_results then VBool b else VInt num_results)
  | VFloat q => Ok (if Qlt_le_dec q (inject_Z num_results) then VFloat q else VInt num_results)
  | other => Raise {| exn_cls := TypeError;
                      exn_msg := "'<' not supported between instances of '"
                                 +:+ type_name other +:+ "' and 'int'" |}
  end.

(** [range(n)] as the number of its elements, or the [TypeError] for a
    float. *)
Definition range_length (n : value) : result nat :=
  match n with
  | VInt k => Ok (Z.to_nat k)
  | VBool b => Ok (if b then 1%nat else 0%nat)
  | other => Raise {| exn_cls := TypeError;
                      exn_msg := "'" +:+ type_name other
                                 +:+ "' object cannot be interpreted as an integer" |}
  end.

(** [GoogleSearch.execute(self, query, num_results=5, safe_search=True)] for
    a call with arguments of the annotated types ([query: str],
    [num_results: int], [safe_search: bool]); the config is whatever the
    registry document holds.  The whole body is inside
    [try ... except Exception], which returns the failure mapping. *)
Definition execute (self_config : gmap string value)
    (query : string) (num_results : Z) (safe_search : bool)
    : list log_line * gmap string value :=
  let api_key := default VNone (self_config !! "api_key") in
  let max_results := default (VInt 5) (self_config !! "max_results") in
  let on_error (logs : list log_line) (e : exn) :=
    (logs ++ [tool_line ERROR "Error executing Google Search: {}" [VStr (exn_msg e)]],
     failure (exn_msg e)) in
  let not_configured :=
    ([tool_line WARNING "Google Search API key not configured" []],
     failure "Google Search API key not configured") in
  if negb (truthy_value api_key) then not_configured
  else
    match api_key with
    | VStr key =>
        if startswith "${" key then not_configured
        else
          let logs := [tool_line INFO "Google Search query: {}" [VStr query]] in
          match min_results num_results max_results with
          | Raise e => on_error logs e
          | Ok n =>
              match range_length n with
              | Raise e => on_error logs e
              | Ok len =>
                  (logs,
                   {[ "success" := VBool true;
                      "query" := VStr query;
                      "num_results" := n;
                      "data" := VList (result_item query <$> seq 0 len) ]})
              end
          end
    | other =>
        on_error [] {| exn_cls := AttributeError;
                       exn_msg := "'" +:+ type_name other
                                  +:+ "' object has no attribute 'startswith'" |}
    end.

End GoogleSearch.

(** ** MCPService ([mcp_service.py]) *)

(** A log line of the modules above the manager, with the [__name__] of the
    module whose logger writes it. *)
Record app_line := {
  al_logger : string;
  al_level : level;
  al_template : string;
  al_args : list value }.

Definition app_log_to {S} (put_line : app_line -> S -> S) (logger : string)
    (l : level) (template : string) (args : list value) : M S unit :=
  fun s h =>
    (Ok tt,
     put_line {| al_logger := logger; al_level := l;
                 al_template := template; al_args := args |} s,
     h).

Module Service.

(** The service object: its manager, and the log of the service and route
    modules. *)
Record MCPService := {
  tool_manager : ToolManager;
  app_log : list app_line }.

Definition log : level -> string -> list value -> M MCPService unit :=
  app_log_to
    (fun ln s => {| tool_manager := tool_manager s; app_log := app_log s ++ [ln] |})
    "app.mcp.mcp_service".

(** An operation of [self.tool_manager]. *)
Definition on_manager {A} (m : M ToolManager A) : M MCPService A :=
  zoom tool_manager
       (fun tm s => {| tool_manager := tm; app_log := app_log s |})
       m.

(** The first [MCPService()], which builds the manager. *)
Definition __init__ (w : World) : M unit MCPService :=
  do tm <- Manager.__init__ w None;
  ret {| tool_manager := tm;
         app_log := [{| al_logger := "app.mcp.mcp_service"; al_level := INFO;
                        al_template := "MCP Service initialized"; al_args := [] |}] |}.

Definition initialize (w : World) : M MCPService unit :=
  run on_manager (Manager.initialize w);
  log INFO "MCP Service tools loaded" [].

Definition get_available_tools (self : MCPService) : list ToolInfo :=
  get_available_tools (tool_manager self).

(** [if not description: return None]: no description, or an empty one. *)
Definition get_tool_info (self : MCPService) (tool_name : string)
    : option (gmap string value) :=
  match Manager.get_tool_description (tool_manager self) tool_name with
  | None => None
  | Some description =>
      if String.eqb description "" then None
      else Some {[ "name" := VStr tool_name;
                   "description" := VStr description;
                   "schema" := VDict (Manager._get_tool_schema (tool_manager self)
                                        tool_name) ]}
  end.

(** [result.model_dump()] *)
Definition model_dump (r : ToolResult) : gmap string value :=
  {[ "success" := VBool (success r);
     "data" := data r;
     "error" := match error r with
                | Some msg => VStr msg
                | None => VNone
                end ]}.

Definition execute_tool (w : World) (tool_name : string) (kwargs : gmap string value)
    : M MCPService (gmap string value) :=
  do result <- on_manager (Manager.execute_tool w tool_name kwargs);
  ret (model_dump result).

Definition reload_configuration (w : World) : M MCPService unit :=
  run on_manager (Manager.reload_config w);
  log INFO "MCP configuration reloaded" [].

End Service.

(** ** The tool routes ([features/chat/tools_route.py]) *)

Module Routes.

(** What a route hands back to the framework: a [JSONResponse], or the
    [HTTPException] it raises. *)
Inductive http_result :=
| JSONResponse (status_code : Z) (content : gmap string value)
| HTTPException (status_code : Z) (detail : string).

Definition log : level -> string -> list value -> M Service.MCPService unit :=
  app_log_to
    (fun ln s => {| Service.tool_manager := Service.tool_manager s;
                    Service.app_log := Service.app_log s ++ [ln] |})
    "app.features.chat.tools_route".

Definition tool_entry (tool : ToolInfo) : value :=
  VDict {[ "name" := VStr (ti_name tool);
           "description" := VStr (ti_description tool);
           "enabled" := VBool (ti_enabled tool);
           "schema" := VDict (input_schema tool) ]}.

(** [GET /tools/list] *)
Definition list_tools : M Service.MCPService http_result :=
  try_except
    (run log INFO "Listing available tools" [];
     do self <- get;
     let tools := Service.get_available_tools self in
     ret (JSONResponse 200
            {[ "success" := VBool true;
               "count" := VInt (Z.of_nat (length tools));
               "tools" := VList (tool_entry <$> tools) ]}))
    (fun e =>
       run log ERROR "Error listing tools: {}" [VStr (exn_msg e)];
       ret (HTTPException 500 ("Error listing tools: " +:+ exn_msg e))).

(** [GET /tools/{tool_name}]; the 404 raised inside the [try] is re-raised
    by [except HTTPException: raise]. *)
Definition get_tool (tool_name : string) : M Service.MCPService http_result :=
  try_except
    (run log INFO "Getting tool info: {}" [VStr tool_name];
     do self <- get;
     match Service.get_tool_info self tool_name with
     | None =>
         ret (HTTPException 404 ("Tool '" +:+ tool_name +:+ "' not found or not enabled"))
     | Some tool_info =>
         ret (JSONResponse 200 {[ "success" := VBool true; "tool" := VDict tool_info ]})
     end)
    (fun e =>
       run log ERROR "Error getting tool '{}': {}" [VStr tool_name; VStr (exn_msg e)];
       ret (HTTPException 500 ("Error getting tool info: " +:+ exn_msg e))).

(** The call [mcp_service.execute_tool(tool_name, **parameters)] binds
    [self] and [tool_name] positionally: the first key of [parameters] that
    is one of these names is a [TypeError] of the call. *)
Fixpoint bind_execute_tool (parameters : list (string * value)) : option exn :=
  match parameters with
  | [] => None
  | (k, _) :: rest =>
      if bool_decide (k ∈ ["self"; "tool_name"])
      then Some {| exn_cls := TypeError;
                   exn_msg := "MCPService.execute_tool() got multiple values for argument '"
                              +:+ k +:+ "'" |}
      else bind_execute_tool rest
  end.

(** [POST /tools/{tool_name}/execute]; [parameters] is the JSON object of
    the request body, in its order, with distinct keys.  The content of the
    response is made of [value]s, which [JSONResponse] can always render. *)
Definition execute_tool (w : World) (tool_name : string)
    (parameters : list (string * value)) : M Service.MCPService http_result :=
  try_except
    (run log INFO "Executing tool: {} with params: {}"
             [VStr tool_name; VDict (list_to_map parameters)];
     do result <- match bind_execute_tool parameters with
                  | Some e => raise e
                  | None => Service.execute_tool w tool_name (list_to_map parameters)
                  end;
     ret (JSONResponse 200
            {[ "success" := default VNone (result !! "success");
               "tool" := VStr tool_name;
               "data" := default VNone (result !! "data");
               "error" := default VNone (result !! "error") ]}))
    (fun e =>
       run log ERROR "Error executing tool '{}': {}" [VStr tool_name; VStr (exn_msg e)];
       ret (HTTPException 500 ("Error executing tool: " +:+ exn_msg e))).

(** [POST /tools/reload-config] *)
Definition reload_config (w : World) : M Service.MCPService http_result :=
  try_except
    (run log INFO "Reloading MCP configuration" [];
     run Service.reload_configuration w;
     ret (JSONResponse 200
            {[ "success" := VBool true;
               "message" := VStr "MCP configuration reloaded successfully" ]}))
    (fun e =>
       run log ERROR "Error reloading configuration: {}" [VStr (exn_msg e)];
       ret (HTTPException 500 ("Error reloading configuration: " +:+ exn_msg e))).

End Routes.

(** ** AuthMiddleware ([middleware/auth_middleware.py]) *)

Module Auth.

(** What the middleware uses of a user entity. *)
Record User := {
  username : string;
  is_active : bool }.

(** What the middleware reads from outside: [settings.auth_excluded_routes],
    [get_user_id_from_token] of [app.features.auth.jwt] and
    [UserRepository().get_by_id], neither of which is among the sources. *)
Record Deps := {
  auth_excluded_routes : list string;
  get_user_id_from_token : string -> result value;
  get_by_id : value -> result (option User) }.

(** [request.url.path] and [request.headers.get("Authorization")]. *)
Record Request := {
  path : string;
  authorization : option string }.

(** The request goes on to [call_next], with [request.state.user] set or
    not, or the middleware raises [HTTPException(401, detail)]. *)
Inductive outcome :=
| CallNext (user : option User)
| Unauthorized (detail : string).

Definition log : level -> string -> list value -> M (list app_line) unit :=
  app_log_to (fun ln s => s ++ [ln]) "app.middleware.auth_middleware".

(** The loop of [_is_excluded_route]. *)
Fixpoint _is_excluded_route (excluded : list string) (path : string) : bool :=
  match excluded with
  | [] => false
  | excluded_route :: rest =>
      if String.eqb path excluded_route || startswith excluded_route path then true
      else _is_excluded_route rest path
  end.

(** [c.isspace()] for the characters of a header value (Latin-1). *)
Definition isspace (c : ascii) : bool :=
  bool_decide (nat_of_ascii c ∈ [9; 10; 11; 12; 13; 28; 29; 30; 31; 32; 133; 160]%nat).

(** [s.split()]: the maximal runs of characters that are not whitespace;
    [cur] is the run being read. *)
Fixpoint split_whitespace (cur : string) (s : string) : list string :=
  match s with
  | EmptyString => if String.eqb cur "" then [] else [cur]
  | String c r =>
      if isspace c
      then (if String.eqb cur "" then split_whitespace "" r
            else cur :: split_whitespace "" r)
      else split_whitespace (cur +:+ String c EmptyString) r
  end.

(** [scheme, token = auth_header.split()] and the check of the scheme: the
    token, or [None] where the code raises [ValueError]. *)
Definition bearer_token (auth_header : string) : option string :=
  match split_whitespace "" auth_header with
  | [scheme; token] => if String.eqb (lower scheme) "bearer" then Some token else None
  | _ => None
  end.

Definition dispatch (deps : Deps) (request : Request) : M (list app_line) outcome :=
  let path := path request in
  if _is_excluded_route (auth_excluded_routes deps) path then
    run log DEBUG "Public route accessed: {}" [VStr path];
    ret (CallNext None)
  else
    match authorization request with
    | None =>
        run log WARNING "No authorization header for route: {}" [VStr path];
        ret (Unauthorized "Missing authorization header")
    | Some auth_header =>
        if String.eqb auth_header "" then
          run log WARNING "No authorization header for route: {}" [VStr path];
          ret (Unauthorized "Missing authorization header")
        else
          match bearer_token auth_header with
          | None =>
              run log WARNING "Invalid authorization header format: {}" [VStr auth_header];
              ret (Unauthorized "Invalid authorization header format")
          | Some token =>
              do user_id <- lift (get_user_id_from_token deps token);
              if negb (truthy_value user_id) then
                run log WARNING "Invalid token provided for route: {}" [VStr path];
                ret (Unauthorized "Invalid or expired token")
              else
                do user <- lift (get_by_id deps user_id);
                match user with
                | None =>
                    run log WARNING "Inactive or missing user for token: {}" [user_id];
                    ret (Unauthorized "Inactive or missing user")
                | Some user =>
                    if negb (is_active user) then
                      run log WARNING "Inactive or missing user for token: {}" [user_id];
                      ret (Unauthorized "Inactive or missing user")
                    else
                      run log DEBUG "Authenticated user {} accessing {}"
                              [VStr (username user); VStr path];
                      ret (CallNext (Some user))
                end
          end
    end.

(** [Settings.auth_excluded_routes] as [settings.py] declares it. *)
Definition default_excluded_routes : list string :=
  ["/health"; "/"; "/api/v1/auth/login"].

End Auth.

(** ** Notions for the further properties *)

(** The characters of a string. *)
Definition chars (s : string) : list ascii := list_ascii_of_string s.

(** The mapping that [initialize] builds from a registry. *)
Definition coroutine_mapping (self : ToolRegistry) : gmap string pyobj :=
  map_fold Loader.load_all_tools_step ∅ (Registry.get_enabled_tools self).

(** The manager's mapping, when it holds one, is the one [initialize] builds
    from the held document. *)
Definition mapping_current (m : ToolManager) : Prop :=
  forall ts, _tools m = Some ts -> ts = coroutine_mapping (registry m).

(** [any(c.isspace() for c in s)] *)
Definition has_space (s : string) : bool := existsb Auth.isspace (chars s).
(** * Properties *)

#[local] Set Warnings "-clear-no-such-hyp".

Ltac unfold_m :=
  unfold Registry.log, Loader.log, Manager.log, log_from,
    bind, ret, raise, try_except, get, put, emit, emits, lift, fresh_id, zoom in *.

(** ** Strings *)

Lemma app_cons (c : ascii) (s r : string) : String c s +:+ r = String c (s +:+ r).
Proof. reflexivity. Qed.

Lemma substring_0_length_app (t r : string) :
  substring 0 (String.length t) (t +:+ r) = t.
Proof.
  induction t as [|c t IH]; [by destruct r |].
  rewrite app_cons. simpl. by rewrite IH.
Qed.

Lemma substring_length_app (t r : string) (n : nat) :
  substring (String.length t) n (t +:+ r) = substring 0 n r.
Proof. induction t as [|c t IH]; [done |]. rewrite app_cons. simpl. apply IH. Qed.

Lemma length_app (t r : string) :
  String.length (t +:+ r) = (String.length t + String.length r)%nat.
Proof. induction t as [|c t IH]; [done |]. rewrite app_cons. simpl. by rewrite IH. Qed.

Lemma substring_0_all (s : string) : substring 0 (String.length s) s = s.
Proof. induction s as [|c s IH]; simpl; [done | by rewrite IH]. Qed.

Lemma substring_split (s : string) (n : nat) :
  (n <= String.length s)%nat ->
  s = substring 0 n s +:+ substring n (String.length s - n) s.
Proof.
  revert n. induction s as [|c s IH]; intros n Hn; destruct n as [|n]; simpl in *.
  - reflexivity.
  - lia.
  - by rewrite substring_0_all.
  - rewrite app_cons. f_equal. apply IH. lia.
Qed.

Lemma placeholder_startswith name : startswith "${" (placeholder name) = true.
Proof. destruct name; reflexivity. Qed.

Lemma placeholder_endswith name : endswith "}" (placeholder name) = true.
Proof.
  unfold endswith, placeholder.
  change ("${" +:+ name +:+ "}") with (String "$" (String "{" (name +:+ "}"))).
  cbn [String.length]. rewrite length_app. cbn [String.length].
  apply andb_true_intro. split.
  - apply Nat.leb_le. lia.
  - replace (S (S (String.length name + 1)) - 1)%nat with (S (S (String.length name))) by lia.
    cbn [substring]. rewrite substring_length_app. reflexivity.
Qed.

Lemma placeholder_slice name : slice_from_to_last 2 1 (placeholder name) = name.
Proof.
  unfold slice_from_to_last, placeholder.
  change ("${" +:+ name +:+ "}") with (String "$" (String "{" (name +:+ "}"))).
  cbn [String.length]. rewrite length_app. cbn [String.length].
  replace (S (S (String.length name + 1)) - 1 - 2)%nat with (String.length name) by lia.
  cbn [substring]. apply substring_0_length_app.
Qed.

Lemma matches_is_placeholder s :
  startswith "${" s = true -> endswith "}" s = true ->
  s = placeholder (slice_from_to_last 2 1 s).
Proof.
  unfold startswith, endswith, slice_from_to_last, placeholder.
  intros Hp He. apply andb_prop in He as [Hl He].
  apply String.eqb_eq in He. cbn [String.length] in *.
  apply prefix_correct in Hp.
  destruct s as [|a [|b r]]; simpl in Hp; try discriminate.
  injection Hp as -> -> _.
  cbn [String.length] in *.
  destruct (String.length r) as [|n] eqn:Hr.
  { destruct r; [simpl in He; discriminate | discriminate Hr]. }
  replace (S (S (S n)) - 1)%nat with (S (S n)) in He by lia.
  cbn [substring] in He.
  replace (S (S (S n)) - 1 - 2)%nat with n by lia.
  cbn [substring].
  change ("${" +:+ substring 0 n r +:+ "}") with (String "$" (String "{" (substring 0 n r +:+ "}"))).
  do 2 f_equal.
  rewrite (substring_split r n) at 1 by lia.
  f_equal. rewrite Hr. replace (S n - n)%nat with 1%nat by lia. exact He.
Qed.

(** ** Interpolation *)

Lemma interpolate_value_placeholder env name :
  Registry.interpolate_value env (VStr (placeholder name))
  = VStr (Registry.getenv env name (placeholder name)).
Proof.
  unfold Registry.interpolate_value.
  by rewrite placeholder_startswith, placeholder_endswith, placeholder_slice.
Qed.

Lemma interpolate_value_other_string env s :
  (forall name, s <> placeholder name) ->
  Registry.interpolate_value env (VStr s) = VStr s.
Proof.
  intros Hs. unfold Registry.interpolate_value.
  destruct (startswith "${" s) eqn:Hp; [|done].
  destruct (endswith "}" s) eqn:He; [|done].
  by destruct (Hs _ (matches_is_placeholder s Hp He)).
Qed.

Lemma interpolate_value_non_string env v :
  (forall s, v <> VStr s) -> Registry.interpolate_value env v = v.
Proof. intros Hv. destruct v; try done. by destruct (Hv s). Qed.

(** C3.  [interpolate_config] keeps the keys of the config and changes only
    the top-level values that are a string of the form [${NAME}]: such a
    value becomes the value of the environment variable [NAME] when it is
    set and stays the literal placeholder when it is not; any other string
    and any value that is not a string (in particular a list or a mapping,
    whatever it contains) is passed through unchanged. *)
Theorem interpolate_config_shallow_substitution
    (env : gmap string string) (cfg : gmap string value) :
  (forall k name x,
      cfg !! k = Some (VStr (placeholder name)) -> env !! name = Some x ->
      Registry.interpolate_config env cfg !! k = Some (VStr x))
  /\ (forall k name,
      cfg !! k = Some (VStr (placeholder name)) -> env !! name = None ->
      Registry.interpolate_config env cfg !! k = Some (VStr (placeholder name)))
  /\ (forall k s,
      cfg !! k = Some (VStr s) -> (forall name, s <> placeholder name) ->
      Registry.interpolate_config env cfg !! k = Some (VStr s))
  /\ (forall k v,
      cfg !! k = Some v -> (forall s, v <> VStr s) ->
      Registry.interpolate_config env cfg !! k = Some v)
  /\ (forall k l,
      cfg !! k = Some (VList l) ->
      Registry.interpolate_config env cfg !! k = Some (VList l))
  /\ (forall k d,
      cfg !! k = Some (VDict d) ->
      Registry.interpolate_config env cfg !! k = Some (VDict d))
  /\ (forall k,
      cfg !! k = None -> Registry.interpolate_config env cfg !! k = None).
Proof.
  unfold Registry.interpolate_config.
  repeat split; intros k; intros; rewrite lookup_fmap;
    match goal with H : cfg !! k = _ |- _ => rewrite H end;
    cbn [fmap option_fmap option_map]; try done.
  - rewrite interpolate_value_placeholder. unfold Registry.getenv.
    by match goal with H : env !! _ = _ |- _ => rewrite H end.
  - rewrite interpolate_value_placeholder. unfold Registry.getenv.
    by match goal with H : env !! _ = _ |- _ => rewrite H end.
  - by rewrite interpolate_value_other_string.
  - by rewrite interpolate_value_non_string.
Qed.

Lemma interpolate_config_shallow_substitution_witness :
  let cfg : gmap string value :=
    {[ "key" := VStr "${MY_VAR}"; "other" := VStr "${UNSET}";
       "plain" := VStr "$MY_VAR"; "port" := VInt 8080;
       "nested" := VList [VStr "${MY_VAR}"] ]} in
  let env : gmap string string := {[ "MY_VAR" := "secret" ]} in
  Registry.interpolate_config env cfg !! "key" = Some (VStr "secret")
  /\ Registry.interpolate_config env cfg !! "other" = Some (VStr "${UNSET}")
  /\ Registry.interpolate_config env cfg !! "nested" = Some (VList [VStr "${MY_VAR}"]).
Proof.
  intros cfg env.
  destruct (interpolate_config_shallow_substitution env cfg)
    as (Hset & Hunset & _ & _ & Hlist & _).
  split; [| split].
  - apply (Hset "key" "MY_VAR" "secret"); reflexivity.
  - apply (Hunset "other" "UNSET"); reflexivity.
  - apply (Hlist "nested"); reflexivity.
Defined.

(** ** The registry: loading and reloading the document *)


Lemma new_events_app h h' evs :
  trace h' = trace h ++ evs -> new_events h h' = evs.
Proof. unfold new_events. intros ->. apply drop_app_length. Qed.

Lemma load_config_absent {S} (w : World) (path : string) (s : S) (h : heap) :
  files w !! path = None ->
  Registry._load_config w path s h
  = (Ok {| version := "1.0"; tools := ∅ |}, s,
     {| next_id := next_id h;
        trace := trace h ++ [Log registry_logger WARNING
                               "Config file not found: {}. Using empty config."
                               [VStr path]] |}).
Proof. intros Hf. unfold Registry._load_config. rewrite Hf. reflexivity. Qed.

Lemma load_config_error {S} (w : World) (path : string) (s : S) (h : heap) f e :
  files w !! path = Some f -> load_error f = Some e ->
  exists tmpl,
    Registry._load_config w path s h
    = (Raise e, s,
       {| next_id := next_id h;
          trace := trace h ++ [Log registry_logger ERROR tmpl [VStr (exn_msg e)]] |}).
Proof.
  intros Hf He. unfold Registry._load_config, load_error in *. rewrite Hf.
  unfold_m.
  destruct (json_load f) as [v|e1]; [destruct (MCPConfig_new v) as [c|e2] |];
    simplify_eq; destruct (is_JSONDecodeError e); eexists; reflexivity.
Qed.

Lemma load_config_ok {S} (w : World) (path : string) (s : S) (h : heap) f :
  files w !! path = Some f -> load_error f = None ->
  exists v c,
    json_load f = Ok v /\ MCPConfig_new v = Ok c /\
    Registry._load_config w path s h
    = (Ok c, s,
       {| next_id := next_id h;
          trace := trace h ++ [Log registry_logger INFO
                                 "Loaded MCP configuration with {} tools"
                                 [VInt (Z.of_nat (size (tools c)))]] |}).
Proof.
  intros Hf He. unfold Registry._load_config, load_error in *. rewrite Hf.
  unfold_m.
  destruct (json_load f) as [v|e1] eqn:Hj;
    [destruct (MCPConfig_new v) as [c|e2] eqn:Hc |]; simplify_eq.
  by exists v, c.
Qed.

(** C6.  Loading from a path where there is no file succeeds: it returns the
    empty document (version 1.0, no tools), leaves the state as it was and
    adds one log line, at warning level.  Loading a file that cannot be read,
    is not JSON or does not validate raises that very exception to the
    caller, with an error-level log line and no document. *)
Theorem load_config_absent_or_malformed {S} (w : World) (path : string)
    (s : S) (h : heap) :
  (files w !! path = None ->
     exists h',
       Registry._load_config w path s h
       = (Ok {| version := "1.0"; tools := ∅ |}, s, h')
       /\ exists tmpl args, new_events h h' = [Log registry_logger WARNING tmpl args])
  /\ (forall f e,
        files w !! path = Some f -> load_error f = Some e ->
        exists h',
          Registry._load_config w path s h = (Raise e, s, h')
          /\ exists tmpl args, new_events h h' = [Log registry_logger ERROR tmpl args]).
Proof.
  split.
  - intros Hf. eexists. split; [by apply load_config_absent |].
    do 2 eexists. by apply new_events_app.
  - intros f e Hf He.
    destruct (load_config_error w path s h f e Hf He) as [tmpl Hl].
    eexists. split; [exact Hl |]. do 2 eexists. by apply new_events_app.
Qed.

Lemma reload_config_raise (w : World) (self : ToolRegistry) (h : heap) e self' h' :
  Registry.reload_config w self h = (Raise e, self', h') -> self' = self.
Proof.
  unfold Registry.reload_config, Registry._load_config. unfold_m.
  repeat case_match; intros; simplify_eq; done.
Qed.

(** C7.  A reload that fails leaves the registry as it was: whenever
    [reload_config] raises, the registry object after the call is the one
    before it, and it does raise, with the document untouched, when the file
    at the configuration path cannot be read, decoded or validated. *)
Theorem reload_failure_keeps_document (w : World) (self : ToolRegistry) (h : heap) :
  (forall e self' h',
      Registry.reload_config w self h = (Raise e, self', h') ->
      self' = self /\ config self' = config self)
  /\ (forall f e,
        files w !! config_path self = Some f -> load_error f = Some e ->
        exists h', Registry.reload_config w self h = (Raise e, self, h')).
Proof.
  split.
  - intros e self' h' Hr. apply reload_config_raise in Hr. by subst.
  - intros f e Hf He.
    destruct (load_config_error w (config_path self) self h f e Hf He) as [tmpl Hl].
    eexists. unfold Registry.reload_config. unfold_m. rewrite Hl. reflexivity.
Qed.

(** ** The loader *)

Lemma get_enabled_tools_lookup (self : ToolRegistry) (name : string) (tc : ToolConfig) :
  Registry.get_enabled_tools self !! name = Some tc
  <-> tools (config self) !! name = Some tc /\ enabled tc = true.
Proof. unfold Registry.get_enabled_tools. by rewrite map_lookup_filter_Some. Qed.

Lemma is_tool_enabled_true (self : ToolRegistry) (name : string) :
  Registry.is_tool_enabled self name = true
  <-> exists tc, tools (config self) !! name = Some tc /\ enabled tc = true.
Proof.
  unfold Registry.is_tool_enabled. destruct (tools (config self) !! name) as [tc|].
  - split; [by exists tc | by intros (? & [= <-] & ?)].
  - split; [done | by intros (? & ? & ?)].
Qed.

Lemma load_all_tools_fold_lookup (en : gmap string ToolConfig) (name : string) :
  map_fold Loader.load_all_tools_step ∅ en !! name
  = match en !! name with
    | Some _ => Some (Coroutine_load_tool name)
    | None => None
    end.
Proof.
  induction en as [|k tc en Hk Hfold IH] using map_first_key_ind.
  - by rewrite map_fold_empty, !lookup_empty.
  - rewrite map_fold_insert_first_key by done.
    unfold Loader.load_all_tools_step at 1. cbn [Loader.truthy].
    destruct (decide (k = name)) as [->|Hne].
    + by rewrite !lookup_insert_eq.
    + by rewrite !lookup_insert_ne.
Qed.

Lemma load_tool_cached (w : World) (name : string) (m : ToolManager) (h : heap) t :
  _tool_cache (loader m) !! name = Some t ->
  Loader.load_tool w name m h
  = (Ok (Some t), m,
     {| next_id := next_id h;
        trace := trace h ++ [Log loader_logger DEBUG "Tool '{}' loaded from cache"
                               [VStr name]] |}).
Proof. intros Hc. unfold Loader.load_tool. unfold_m. by rewrite Hc. Qed.

Lemma load_tool_not_enabled (w : World) (name : string) (m : ToolManager) (h : heap) :
  _tool_cache (loader m) !! name = None ->
  Registry.is_tool_enabled (registry m) name = false ->
  Loader.load_tool w name m h
  = (Ok None, m,
     {| next_id := next_id h;
        trace := trace h ++ [Log loader_logger WARNING "Tool '{}' is not enabled"
                               [VStr name]] |}).
Proof. intros Hc He. unfold Loader.load_tool. unfold_m. by rewrite Hc, He. Qed.

Lemma tool_logs_ok (name : string) (lns : list log_line) :
  Forall (load_event_ok name) (tool_log <$> lns).
Proof. apply Forall_fmap, Forall_true. intros ln [? _]. discriminate. Qed.

Ltac events_ok :=
  repeat first
    [ apply Forall_nil_2
    | apply tool_logs_ok
    | apply Forall_app_2
    | apply Forall_cons_2; [cbn; first [reflexivity | intros (? & ? & ?); discriminate] |] ].

Lemma load_tool_miss_enabled (w : World) (name : string) (m : ToolManager)
    (h : heap) r m' h' :
  _tool_cache (loader m) !! name = None ->
  Registry.is_tool_enabled (registry m) name = true ->
  Loader.load_tool w name m h = (r, m', h') ->
  exists res evs,
    r = Ok res /\ trace h' = trace h ++ evs
    /\ Forall (load_event_ok name) evs
    /\ CallInterpolate name ∈ evs
    /\ match res with
       | Some t =>
           m' = {| registry := registry m;
                   loader := {| _tool_cache := <[name := t]> (_tool_cache (loader m)) |};
                   _tools := _tools m |}
           /\ obj_id t = next_id h /\ next_id h' = Datatypes.S (next_id h)
           /\ CallConstruct name ∈ evs
       | None => m' = m /\ next_id h' = next_id h
       end.
Proof.
  intros Hc He. pose proof He as Hen.
  apply is_tool_enabled_true in Hen as (tc & Htc & _).
  unfold Loader.load_tool, Loader.construct, Loader._import_module, Loader.cache_store.
  unfold Registry.get_tool_config.
  unfold_m. rewrite Hc, He, Htc. cbn [negb].
  repeat case_match; intros; simplify_eq; cbn [trace next_id] in *;
    eexists _, _; (split; [reflexivity |]);
    (split; [rewrite <- ?app_assoc; reflexivity |]);
    (split; [events_ok |]); (split; [set_solver |]); try done.
  repeat split; try done. set_solver.
Qed.

(** ** The manager *)

Lemma tool_logs_are_logs (lns : list log_line) : Forall is_log (tool_log <$> lns).
Proof. apply Forall_fmap, Forall_true. by intros ln. Qed.

Ltac logs_only :=
  repeat first
    [ apply Forall_nil_2
    | apply tool_logs_are_logs
    | apply Forall_app_2
    | apply Forall_cons_2; [exact I |] ].

Lemma execute_tool_spec (w : World) (name : string) (kwargs : gmap string value)
    (m : ToolManager) (h : heap) :
  exists res evs h',
    Manager.execute_tool w name kwargs m h
    = (Ok res, {| registry := registry m; loader := loader m;
                  _tools := Some (tools_in_use m) |}, h')
    /\ trace h' = trace h ++ evs /\ Forall is_log evs /\ next_id h' = next_id h
    /\ res = match tools_in_use m !! name with
             | None => not_found name
             | Some (Instance t) =>
                 match (tc_execute (cls t) (self_config t) kwargs (amb w)).2 with
                 | Returns v => succeeded v
                 | Raises e => failed e
                 end
             | Some (Coroutine_load_tool _) => failed no_execute_attribute
             end.
Proof.
  unfold Manager.execute_tool, Manager.initialize, Loader.load_all_tools,
    Manager.set_tools, Manager.call_execute, tools_in_use.
  unfold_m. destruct m as [reg ld [ts|]]; cbn [_tools registry loader];
    repeat case_match; simplify_eq; cbn [trace next_id] in *;
    eexists _, _, _; (split; [reflexivity |]);
    (split; [first [rewrite <- ?app_assoc; reflexivity | symmetry; apply app_nil_r] |]);
    (split; [logs_only |]); done.
Qed.

(** ** Invariants of the reachable states *)

Lemma load_config_frame {S} (w : World) (path : string) (s : S) (h : heap) r s' h' :
  Registry._load_config w path s h = (r, s', h') ->
  s' = s /\ next_id h' = next_id h
  /\ exists evs, trace h' = trace h ++ evs /\ Forall is_log evs.
Proof.
  unfold Registry._load_config. unfold_m.
  repeat case_match; intros; simplify_eq; cbn [trace next_id];
    (split; [done |]); (split; [done |]); eexists;
    (split; [rewrite <- ?app_assoc; reflexivity | logs_only]).
Qed.

Lemma fold_tools_enabled (self : ToolRegistry) (name : string) (o : pyobj) :
  map_fold Loader.load_all_tools_step ∅ (Registry.get_enabled_tools self) !! name = Some o ->
  Registry.is_tool_enabled self name = true.
Proof.
  rewrite load_all_tools_fold_lookup.
  destruct (Registry.get_enabled_tools self !! name) as [tc|] eqn:Hen; [|done].
  intros _. apply get_enabled_tools_lookup in Hen. apply is_tool_enabled_true. eauto.
Qed.

Lemma new_manager_consistent (w : World) path h0 m h :
  Manager.__init__ w path tt h0 = (Ok m, tt, h) -> consistent m.
Proof.
  unfold Manager.__init__, Registry.__init__, Loader.__init__. unfold_m.
  repeat case_match; intros; simplify_eq;
    (split; [intros name t Hc | intros ts name o Ht]; simpl in *; simplify_map_eq).
Qed.

(** What one call other than the registry's own reload can do: it keeps
    the state consistent, it caches only what was cached already or what
    the document held before the call enables, and it constructs only tools
    that this document enables. *)
Lemma run_op_spec (w : World) (o : op) (m : ToolManager) (h : heap) r m' h' :
  consistent m -> o <> OpReloadRegistry -> run_op w o m h = (r, m', h') ->
  consistent m'
  /\ (forall x t, _tool_cache (loader m') !! x = Some t ->
                 _tool_cache (loader m) !! x = Some t
                 \/ Registry.is_tool_enabled (registry m) x = true)
  /\ exists evs, trace h' = trace h ++ evs
                /\ forall x, CallConstruct x ∈ evs ->
                             Registry.is_tool_enabled (registry m) x = true.
Proof.
  intros [Hcache Htools] Hop.
  destruct o as [|name kwargs| |name| | |]; cbn [run_op]; [| | | | | | done].
  - (* initialize *)
    unfold Manager.initialize, Loader.load_all_tools, Manager.set_tools. unfold_m.
    intros; simplify_eq; cbn [trace next_id]. repeat split.
    + exact Hcache.
    + intros ts name o [= <-] Ho. by eapply fold_tools_enabled.
    + auto.
    + eexists. split; [rewrite <- ?app_assoc; reflexivity | set_solver].
  - (* execute_tool *)
    destruct (execute_tool_spec w name kwargs m h) as (res & evs & h1 & He & Ht & Hl & _).
    unfold_m. rewrite He. intros; simplify_eq. repeat split.
    + exact Hcache.
    + intros ts x o [= <-]. unfold tools_in_use.
      destruct (_tools m) as [ts|] eqn:Hts; [by eapply Htools | by apply fold_tools_enabled].
    + auto.
    + exists evs. split; [done |]. intros x Hx.
      by apply (proj1 (Forall_forall _ _) Hl) in Hx.
  - (* reload_config *)
    unfold Manager.reload_config, Manager.reload_registry, Registry.reload_config,
      Loader.clear_cache, Manager.set_tools. unfold_m.
    destruct (Registry._load_config w (config_path (registry m)) (registry m) h)
      as [[[c|e] s1] h1] eqn:Hload;
      apply load_config_frame in Hload as (-> & _ & evs & Hev & Hlogs);
      intros; simplify_eq; cbn [trace next_id registry loader _tools _tool_cache].
    + repeat split.
      * by intros name t.
      * by intros ts name o.
      * intros x t. by rewrite lookup_empty.
      * eexists. split; [rewrite Hev, <- ?app_assoc; reflexivity |].
        intros x Hx. rewrite !elem_of_app in Hx.
        destruct Hx as [Hx|Hx]; [| set_solver].
        by apply (proj1 (Forall_forall _ _) Hlogs) in Hx.
    + destruct m as [reg ld ts]. repeat split; auto.
      exists evs. split; [done |]. intros x Hx.
      by apply (proj1 (Forall_forall _ _) Hlogs) in Hx.
  - (* load_tool *)
    unfold_m.
    destruct (_tool_cache (loader m) !! name) as [t|] eqn:Hc.
    { rewrite (load_tool_cached w name m h t Hc). intros; simplify_eq. repeat split; auto.
      eexists. split; [reflexivity | set_solver]. }
    destruct (Registry.is_tool_enabled (registry m) name) eqn:Hen.
    2:{ rewrite (load_tool_not_enabled w name m h Hc Hen). intros; simplify_eq.
        repeat split; auto. eexists. split; [reflexivity | set_solver]. }
    destruct (Loader.load_tool w name m h) as [[r1 m1] h1] eqn:Hl.
    destruct (load_tool_miss_enabled w name m h r1 m1 h1 Hc Hen Hl)
      as (res & evs & -> & Hev & Hok & _ & Hres).
    intros; simplify_eq.
    assert (forall x, CallConstruct x ∈ evs ->
                      Registry.is_tool_enabled (registry m) x = true) as Hcons.
    { intros x Hx. apply (proj1 (Forall_forall _ _) Hok) in Hx. simpl in Hx. by subst. }
    destruct res as [t|].
    + destruct Hres as (-> & _). repeat split.
      * intros x t'. cbn. destruct (decide (name = x)) as [<-|Hne]; [done |].
        rewrite lookup_insert_ne by done. apply Hcache.
      * exact Htools.
      * intros x t'. cbn. destruct (decide (name = x)) as [<-|Hne]; [auto |].
        rewrite lookup_insert_ne by done. auto.
      * eauto.
    + destruct Hres as (-> & _). repeat split; eauto.
  - (* load_all_tools *)
    unfold Loader.load_all_tools. unfold_m. intros; simplify_eq. repeat split; auto.
    eexists. split; [reflexivity | set_solver].
  - (* clear_cache *)
    unfold Loader.clear_cache. unfold_m. intros; simplify_eq.
    cbn [trace next_id registry loader _tools _tool_cache]. repeat split.
    + by intros name t.
    + exact Htools.
    + intros x t. by rewrite lookup_empty.
    + eexists. split; [reflexivity | set_solver].
Qed.

Lemma managed_consistent (m : ToolManager) (h : heap) :
  managed m h -> consistent m.
Proof.
  induction 1 as [w path h0 m h Hnew | w o m h r m' h' _ IH Ho Hop].
  - by eapply new_manager_consistent.
  - by destruct (run_op_spec w o m h r m' h' IH Ho Hop).
Qed.

Lemma managed_reachable (m : ToolManager) (h : heap) :
  managed m h -> reachable m h.
Proof.
  induction 1 as [w path h0 m h Hnew | w o m h r m' h' _ IH _ Hop].
  - by eapply reachable_new.
  - by eapply reachable_op.
Qed.


(** No call puts a tool object into the manager's mapping. *)
Lemma run_op_coroutines (w : World) (o : op) (m : ToolManager) (h : heap) r m' h' :
  coroutines_only m -> run_op w o m h = (r, m', h') -> coroutines_only m'.
Proof.
  intros Hm. destruct o as [|name kwargs| |name| | |]; cbn [run_op].
  - unfold Manager.initialize, Loader.load_all_tools, Manager.set_tools. unfold_m.
    intros; simplify_eq. intros ts name o [= <-] Ho.
    rewrite load_all_tools_fold_lookup in Ho.
    destruct (Registry.get_enabled_tools (registry m) !! name); by simplify_eq.
  - destruct (execute_tool_spec w name kwargs m h) as (res & evs & h1 & He & _).
    unfold_m. rewrite He. intros; simplify_eq. intros ts x o [= <-] Ho.
    unfold tools_in_use in Ho. destruct (_tools m) as [ts|] eqn:Hts.
    + by eapply Hm.
    + rewrite load_all_tools_fold_lookup in Ho.
      destruct (Registry.get_enabled_tools (registry m) !! x); by simplify_eq.
  - unfold Manager.reload_config, Manager.reload_registry, Registry.reload_config,
      Loader.clear_cache, Manager.set_tools. unfold_m.
    destruct (Registry._load_config w (config_path (registry m)) (registry m) h)
      as [[[c|e] s1] h1] eqn:Hload;
      apply load_config_frame in Hload as (-> & _);
      intros; simplify_eq.
    + by intros ts.
    + by destruct m.
  - unfold_m.
    destruct (_tool_cache (loader m) !! name) as [t|] eqn:Hc.
    { rewrite (load_tool_cached w name m h t Hc). by intros; simplify_eq. }
    destruct (Registry.is_tool_enabled (registry m) name) eqn:Hen.
    2:{ rewrite (load_tool_not_enabled w name m h Hc Hen). by intros; simplify_eq. }
    destruct (Loader.load_tool w name m h) as [[r1 m1] h1] eqn:Hl.
    destruct (load_tool_miss_enabled w name m h r1 m1 h1 Hc Hen Hl)
      as (res & evs & -> & _ & _ & _ & Hres).
    intros; simplify_eq. destruct res as [t|].
    + destruct Hres as (-> & _). exact Hm.
    + by destruct Hres as (-> & _).
  - unfold Loader.load_all_tools. unfold_m. by intros; simplify_eq.
  - unfold Loader.clear_cache. unfold_m. intros; simplify_eq. exact Hm.
  - unfold Manager.reload_registry, Registry.reload_config. unfold_m.
    destruct (Registry._load_config w (config_path (registry m)) (registry m) h)
      as [[[c|e] s1] h1] eqn:Hload;
      apply load_config_frame in Hload as (-> & _);
      intros; simplify_eq.
    + exact Hm.
    + by destruct m.
Qed.

Lemma reachable_coroutines (m : ToolManager) (h : heap) :
  reachable m h -> coroutines_only m.
Proof.
  induction 1 as [w cp h0 m h Hnew | w o m h r m' h' _ IH Hop].
  - unfold Manager.__init__, Registry.__init__, Loader.__init__ in Hnew.
    unfold_m. repeat case_match; simplify_eq; by intros ts.
  - by eapply run_op_coroutines.
Qed.

(** ** The example states are the ones the program builds *)

Lemma current_date_manager_new :
  Manager.__init__ current_date_world None tt empty_heap
  = (Ok current_date_manager, tt, started_heap 1).
Proof. vm_compute. reflexivity. Qed.



Lemma current_date_load :
  Loader.load_tool current_date_world "current_date" current_date_manager (started_heap 1)
  = (Ok (Some current_date_instance), current_date_loaded, loaded_heap).
Proof. reflexivity. Qed.

Lemma current_date_loaded_managed : managed current_date_loaded loaded_heap.
Proof.
  apply (managed_op current_date_world (OpLoadTool "current_date")
           current_date_manager (started_heap 1) (Ok tt)).
  - exact (managed_new _ _ _ _ _ current_date_manager_new).
  - discriminate.
  - reflexivity.
Qed.

Lemma current_date_initialize :
  Manager.initialize current_date_world current_date_manager (started_heap 1)
  = (Ok tt, current_date_initialized, initialized_heap).
Proof. vm_compute. reflexivity. Qed.

Lemma current_date_initialized_reachable :
  reachable current_date_initialized initialized_heap.
Proof.
  apply (reachable_op current_date_world OpInitialize
           current_date_manager (started_heap 1) (Ok tt)).
  - exact (reachable_new _ _ _ _ _ current_date_manager_new).
  - exact current_date_initialize.
Qed.

(** The registry's own reload, run on the manager's registry. *)
Lemma reload_registry_run (w : World) (m : ToolManager) (h : heap) r reg h' :
  Registry.reload_config w (registry m) h = (r, reg, h') ->
  Manager.reload_registry w m h
  = (r, {| registry := reg; loader := loader m; _tools := _tools m |}, h').
Proof. intros Hr. unfold Manager.reload_registry, zoom. by rewrite Hr. Qed.

Lemma stale_disabled_reachable :
  reachable (stale_manager (tools (config (registry disabled_manager)))) stale_heap.
Proof.
  apply (reachable_op (world_with (Json disabled_document)) OpReloadRegistry
           current_date_loaded loaded_heap (Ok tt)).
  - exact (managed_reachable _ _ current_date_loaded_managed).
  - cbn [run_op].
    apply (reload_registry_run (world_with (Json disabled_document)) current_date_loaded
             loaded_heap (Ok tt) (registry disabled_manager) stale_heap).
    vm_compute. reflexivity.
Qed.

Lemma stale_foo_reachable :
  reachable (stale_manager (tools (config (registry foo_manager)))) stale_heap.
Proof.
  apply (reachable_op (world_with (Json foo_document)) OpReloadRegistry
           current_date_loaded loaded_heap (Ok tt)).
  - exact (managed_reachable _ _ current_date_loaded_managed).
  - cbn [run_op].
    apply (reload_registry_run (world_with (Json foo_document)) current_date_loaded
             loaded_heap (Ok tt) (registry foo_manager) stale_heap).
    vm_compute. reflexivity.
Qed.

(** ** Unknown and disabled tools *)


(** [load_tool] on a name that the held document does not enable: it hands
    out what the cache holds under the name and builds nothing. *)
Lemma load_tool_while_not_enabled (w : World) (name : string) (m : ToolManager)
    (h : heap) :
  Registry.is_tool_enabled (registry m) name = false ->
  exists h',
    Loader.load_tool w name m h = (Ok (_tool_cache (loader m) !! name), m, h')
    /\ next_id h' = next_id h
    /\ forall x, (CallConstruct x ∉ new_events h h')
                 /\ (CallInterpolate x ∉ new_events h h').
Proof.
  intros Hen. destruct (_tool_cache (loader m) !! name) as [t|] eqn:Hc.
  - eexists. split; [by apply load_tool_cached |]. split; [done |].
    intros x. erewrite new_events_app by reflexivity.
    split; intros Hx; apply list_elem_of_singleton in Hx; discriminate Hx.
  - eexists. split; [by apply load_tool_not_enabled |]. split; [done |].
    intros x. erewrite new_events_app by reflexivity.
    split; intros Hx; apply list_elem_of_singleton in Hx; discriminate Hx.
Qed.

Lemma tools_in_use_coroutines (m : ToolManager) (name : string) (o : pyobj) :
  coroutines_only m -> tools_in_use m !! name = Some o -> o = Coroutine_load_tool name.
Proof.
  intros Hm. unfold tools_in_use. destruct (_tools m) as [ts|] eqn:Hts.
  - by apply Hm.
  - rewrite load_all_tools_fold_lookup.
    destruct (Registry.get_enabled_tools (registry m) !! name); by intros; simplify_eq.
Qed.


(** C8, as amended.  A tool name that the held document does not declare is
    not enabled, and awaiting [load_tool] on it builds nothing, changes
    nothing and returns what the cache holds under the name; in every state
    reached without the registry's own [reload_config] that is [None]. *)
Theorem unknown_tool_not_enabled_not_loaded (w : World) (m : ToolManager)
    (h : heap) (name : string) :
  tools (config (registry m)) !! name = None ->
  Registry.is_tool_enabled (registry m) name = false
  /\ (exists h',
        Loader.load_tool w name m h = (Ok (_tool_cache (loader m) !! name), m, h')
        /\ next_id h' = next_id h
        /\ forall x, (CallConstruct x ∉ new_events h h')
                     /\ (CallInterpolate x ∉ new_events h h'))
  /\ (managed m h ->
      _tool_cache (loader m) !! name = None
      /\ exists h', Loader.load_tool w name m h = (Ok None, m, h')).
Proof.
  intros Hn.
  assert (Registry.is_tool_enabled (registry m) name = false) as Hen.
  { unfold Registry.is_tool_enabled. by rewrite Hn. }
  split; [exact Hen |]. split; [by apply load_tool_while_not_enabled |].
  intros Hm. apply managed_consistent in Hm as [Hcache _].
  assert (_tool_cache (loader m) !! name = None) as Hc.
  { destruct (_tool_cache (loader m) !! name) as [t|] eqn:Hc; [|done].
    apply Hcache in Hc. congruence. }
  split; [exact Hc |]. eexists. by apply load_tool_not_enabled.
Qed.

Lemma unknown_tool_not_enabled_not_loaded_witness :
  Registry.is_tool_enabled (registry current_date_loaded) "sqlite" = false
  /\ _tool_cache (loader current_date_loaded) !! "sqlite" = None
  /\ exists h',
       Loader.load_tool current_date_world "sqlite" current_date_loaded loaded_heap
       = (Ok None, current_date_loaded, h').
Proof.
  destruct (unknown_tool_not_enabled_not_loaded current_date_world current_date_loaded
              loaded_heap "sqlite" eq_refl) as (Hen & _ & Hm).
  destruct (Hm current_date_loaded_managed) as (Hc & Hl).
  split; [exact Hen |]. split; [exact Hc | exact Hl].
Defined.

(** C8 does not hold as stated: after [current_date] was loaded, the
    registry's own [reload_config] onto a document that no longer declares
    it leaves the instance in the cache, and [load_tool] returns it. *)
Lemma unknown_tool_cached_counterexample :
  reachable (stale_manager (tools (config (registry foo_manager)))) stale_heap
  /\ tools (config (registry (stale_manager (tools (config (registry foo_manager))))))
       !! "current_date" = None
  /\ exists h',
       Loader.load_tool (world_with (Json foo_document)) "current_date"
         (stale_manager (tools (config (registry foo_manager)))) stale_heap
       = (Ok (Some current_date_instance),
          stale_manager (tools (config (registry foo_manager))), h').
Proof.
  split; [exact stale_foo_reachable |]. split; [reflexivity |].
  eexists. by apply load_tool_cached.
Qed.




(** ** Caching *)





(** ** The uniform envelope *)

Lemma tools_in_use_held (m : ToolManager) (ts : gmap string pyobj) :
  _tools m = Some ts ->
  tools_in_use m = ts
  /\ {| registry := registry m; loader := loader m; _tools := Some (tools_in_use m) |} = m.
Proof. destruct m as [reg ld ts']. cbn. by intros ->. Qed.

(** [execute_tool] on a tool object held in the mapping: the envelope is
    made from the outcome of its [execute], and the manager is unchanged. *)
Lemma execute_tool_held (w : World) (m : ToolManager) (h : heap)
    (name : string) (kwargs : gmap string value)
    (ts : gmap string pyobj) (t : tool_instance) :
  _tools m = Some ts ->
  ts !! name = Some (Instance t) ->
  exists h',
    Manager.execute_tool w name kwargs m h
    = (Ok match (tc_execute (cls t) (self_config t) kwargs (amb w)).2 with
          | Returns v => succeeded v
          | Raises e => failed e
          end, m, h').
Proof.
  intros Hts Ht.
  destruct (execute_tool_spec w name kwargs m h) as (res & evs & h' & He & _ & _ & _ & Hres).
  destruct (tools_in_use_held m ts Hts) as [Huse Hm].
  rewrite Hm in He. rewrite Huse, Ht in Hres. subst res. by exists h'.
Qed.

(** C2.  What the code does for a name held in the manager's mapping: in
    every reachable state the object held under the name is the coroutine
    object of the un-awaited [load_tool], not a tool, and for any arguments,
    in any world and so whatever the tool's [execute] would return or
    raise, [execute_tool] returns [success] false, no data and the error of
    the missing [execute] attribute.  It leaves the manager as it was,
    allocates nothing, and writes only the manager's two log lines: the
    tool's [execute] is not called. *)
Theorem held_tool_is_never_executed (w : World) (m : ToolManager) (h : heap)
    (name : string) (kwargs : gmap string value)
    (ts : gmap string pyobj) (o : pyobj) :
  reachable m h ->
  _tools m = Some ts ->
  ts !! name = Some o ->
  o = Coroutine_load_tool name
  /\ exists h',
       Manager.execute_tool w name kwargs m h
       = (Ok {| success := false; data := VNone;
                error := Some "'coroutine' object has no attribute 'execute'" |}, m, h')
       /\ next_id h' = next_id h
       /\ new_events h h'
          = [Log manager_logger INFO "Executing tool '{}' with args: {}"
               [VStr name; VDict kwargs];
             Log manager_logger ERROR "Error executing tool '{}': {}"
               [VStr name; VStr "'coroutine' object has no attribute 'execute'"]].
Proof.
  intros Hr Hts Ho. apply reachable_coroutines in Hr.
  pose proof (Hr ts name o Hts Ho) as ->. split; [done |].
  destruct m as [reg ld ts']. cbn [_tools] in *. simplify_eq.
  unfold Manager.execute_tool, Manager.call_execute. unfold_m.
  cbn [_tools]. rewrite Ho.
  cbn [trace next_id].
  eexists. split; [reflexivity |]. split; [reflexivity |].
  erewrite new_events_app; [reflexivity |].
  cbn [trace]. by rewrite <- !app_assoc.
Qed.

Lemma held_tool_is_never_executed_witness :
  exists h',
    Manager.execute_tool (double_world (Returns (VInt 42))) "current_date" ∅
      current_date_initialized initialized_heap
    = (Ok {| success := false; data := VNone;
             error := Some "'coroutine' object has no attribute 'execute'" |},
       current_date_initialized, h').
Proof.
  destruct (held_tool_is_never_executed (double_world (Returns (VInt 42)))
              current_date_initialized initialized_heap "current_date" ∅
              _ _ current_date_initialized_reachable eq_refl eq_refl)
    as (_ & h' & He & _).
  by exists h'.
Defined.

(** The double is what an awaited [load_tool] builds in its world, and its
    [execute] returns the value it was made with. *)
Lemma double_loads (out : outcome) :
  exists m' h',
    Loader.load_tool (double_world out) "current_date" current_date_manager
      (started_heap 1)
    = (Ok (Some (double_instance out)), m', h')
    /\ (tc_execute (cls (double_instance out)) (self_config (double_instance out)) ∅
          (amb (double_world out))).2 = out.
Proof. eexists _, _. split; reflexivity. Qed.

(** Whatever the state and the tool, [execute_tool] raises nothing. *)
Lemma execute_tool_never_raises (w : World) (m : ToolManager) (h : heap)
    (name : string) (kwargs : gmap string value) :
  exists r m' h', Manager.execute_tool w name kwargs m h = (Ok r, m', h').
Proof.
  destruct (execute_tool_spec w name kwargs m h) as (res & evs & h' & He & _).
  eauto.
Qed.

(** ** The branch for a missing tool config *)

(** C10.  If [is_tool_enabled(name)] is true then [get_tool_config(name)]
    returns a configuration; and whatever the state, awaiting
    [load_tool(name)] never writes the loader's error line
    "Tool ... not found in registry", the only thing that the branch taken
    when the config is missing after the enablement check does besides
    returning [None]. *)
Theorem missing_config_branch_unreachable (w : World) (m : ToolManager) (h : heap)
    (name : string) :
  (Registry.is_tool_enabled (registry m) name = true ->
   is_Some (Registry.get_tool_config (registry m) name))
  /\ (forall r m' h' args,
        Loader.load_tool w name m h = (r, m', h') ->
        Log loader_logger ERROR "Tool '{}' not found in registry" args
          ∉ new_events h h').
Proof.
  split.
  - intros Hen. apply is_tool_enabled_true in Hen as (tc & Htc & _).
    unfold Registry.get_tool_config. by rewrite Htc.
  - intros r m' h' args Hl Hin.
    destruct (_tool_cache (loader m) !! name) as [t|] eqn:Hc.
    { rewrite (load_tool_cached w name m h t Hc) in Hl. simplify_eq.
      erewrite new_events_app in Hin by reflexivity.
      apply list_elem_of_singleton in Hin. discriminate Hin. }
    destruct (Registry.is_tool_enabled (registry m) name) eqn:Hen.
    2:{ rewrite (load_tool_not_enabled w name m h Hc Hen) in Hl. simplify_eq.
        erewrite new_events_app in Hin by reflexivity.
        apply list_elem_of_singleton in Hin. discriminate Hin. }
    destruct (load_tool_miss_enabled w name m h r m' h' Hc Hen Hl)
      as (res & evs & _ & Hev & Hok & _).
    rewrite (new_events_app _ _ _ Hev) in Hin.
    apply (proj1 (Forall_forall _ _) Hok) in Hin. by apply Hin.
Qed.

Lemma missing_config_branch_unreachable_witness :
  is_Some (Registry.get_tool_config (registry current_date_manager) "current_date")
  /\ Log loader_logger ERROR "Tool '{}' not found in registry" [VStr "current_date"]
       ∉ new_events (started_heap 1) loaded_heap.
Proof.
  destruct (missing_config_branch_unreachable current_date_world current_date_manager
              (started_heap 1) "current_date") as [Hcfg Hlog].
  split.
  - apply Hcfg. reflexivity.
  - exact (Hlog _ _ _ _ current_date_load).
Defined.

(** ** Witnesses for the registry *)

Lemma load_config_absent_or_malformed_witness :
  (exists h',
      Registry._load_config absent_world default_path tt empty_heap
      = (Ok {| version := "1.0"; tools := ∅ |}, tt, h'))
  /\ (exists h',
      Registry._load_config (world_with (NotJson "Expecting value")) default_path
        tt empty_heap
      = (Raise {| exn_cls := JSONDecodeError; exn_msg := "Expecting value" |}, tt, h'))
  /\ (exists h',
      Registry._load_config (world_with (Json invalid_document)) default_path
        tt empty_heap
      = (Raise {| exn_cls := ValidationError;
                  exn_msg := "validation error for MCPConfig" |}, tt, h')).
Proof.
  split; [| split].
  - destruct (proj1 (load_config_absent_or_malformed absent_world default_path
                       tt empty_heap) eq_refl) as (h' & Hl & _).
    by exists h'.
  - destruct (proj2 (load_config_absent_or_malformed
                       (world_with (NotJson "Expecting value")) default_path
                       tt empty_heap) _ _ eq_refl eq_refl) as (h' & Hl & _).
    by exists h'.
  - destruct (proj2 (load_config_absent_or_malformed
                       (world_with (Json invalid_document)) default_path
                       tt empty_heap) _ _ eq_refl eq_refl) as (h' & Hl & _).
    by exists h'.
Defined.

Lemma reload_failure_keeps_document_witness :
  exists h',
    Registry.reload_config (world_with (Json invalid_document))
      (registry current_date_manager) (started_heap 1)
    = (Raise {| exn_cls := ValidationError; exn_msg := "validation error for MCPConfig" |},
       registry current_date_manager, h').
Proof.
  exact (proj2 (reload_failure_keeps_document (world_with (Json invalid_document))
                  (registry current_date_manager) (started_heap 1))
               _ _ eq_refl eq_refl).
Defined.

(** A failed reload through the manager leaves the whole manager as it was:
    the cache is not cleared and the mapping is not dropped. *)
Lemma manager_reload_failure_keeps_state (w : World) (m : ToolManager) (h : heap)
    e m' h' :
  Manager.reload_config w m h = (Raise e, m', h') -> m' = m.
Proof.
  unfold Manager.reload_config, Manager.reload_registry, Registry.reload_config,
    Loader.clear_cache, Manager.set_tools. unfold_m.
  destruct (Registry._load_config w (config_path (registry m)) (registry m) h)
    as [[[c|e1] s1] h1] eqn:Hload;
    apply load_config_frame in Hload as (-> & _); intros; simplify_eq.
  by destruct m.
Qed.

(** ** The end-to-end run of [current_date] *)

Lemma is_digit_digit (n : Z) : is_digit (digit n) = true.
Proof.
  unfold digit.
  assert (0 <= n mod 10 < 10) as Hk by (apply Z.mod_pos_bound; lia).
  revert Hk. generalize (n mod 10). intros k Hk.
  assert (k = 0 \/ k = 1 \/ k = 2 \/ k = 3 \/ k = 4 \/ k = 5 \/ k = 6 \/ k = 7
          \/ k = 8 \/ k = 9) as Hcases by lia.
  repeat (destruct Hcases as [-> | Hcases]; [reflexivity |]).
  subst k. reflexivity.
Qed.

Lemma strftime_Y_m_d_shape (d : datetime) : is_YYYY_MM_DD (strftime_Y_m_d d) = true.
Proof.
  unfold is_YYYY_MM_DD, strftime_Y_m_d, pad4, pad2.
  cbv [String.append list_ascii_of_string].
  rewrite !is_digit_digit. reflexivity.
Qed.

(** The tool itself does what the end-to-end property says: called with
    [format="date_only"] it returns a mapping with a [date] of the shape
    YYYY-MM-DD and without [time]. *)
Lemma CurrentDate_execute_date_only (self_config : gmap string value) (a : ambient) :
  exists d,
    (CurrentDate_execute self_config date_only a).2 = Returns (VDict d)
    /\ d !! "date" = Some (VStr (strftime_Y_m_d (utcnow a)))
    /\ is_YYYY_MM_DD (strftime_Y_m_d (utcnow a)) = true
    /\ d !! "time" = None.
Proof.
  eexists. split; [reflexivity |]. split; [reflexivity |].
  split; [apply strftime_Y_m_d_shape | reflexivity].
Qed.

(** And so does [execute_tool] when the mapping holds the instance that an
    awaited [load_tool] returns. *)
Lemma current_date_awaited_succeeds :
  exists d h',
    Manager.execute_tool current_date_world "current_date" date_only
      current_date_awaited loaded_heap
    = (Ok {| success := true; data := VDict d; error := None |}, current_date_awaited, h')
    /\ d !! "date" = Some (VStr "2026-11-03")
    /\ d !! "time" = None.
Proof.
  destruct (CurrentDate_execute_date_only ∅ example_ambient) as (d & Hd & Hdate & _ & Htime).
  destruct (execute_tool_held current_date_world current_date_awaited loaded_heap
              "current_date" date_only _ current_date_instance eq_refl eq_refl)
    as (h' & He).
  cbn [cls self_config current_date_instance CurrentDate tc_execute amb
       current_date_world world_with world_of] in He.
  rewrite Hd in He.
  exists d, h'. split; [exact He |]. split; [exact Hdate | exact Htime].
Qed.

(** C1.  The code at the input of the claim: the document declares
    [current_date], enabled, with an empty config; [initialize()] stores, for
    [current_date], the coroutine object that the un-awaited
    [self.load_tool(tool_name)] makes, and [execute_tool] with
    [format="date_only"] then returns [success] false, no data and the error
    of the missing [execute] attribute.  The same happens when
    [execute_tool] initializes implicitly. *)
Theorem current_date_end_to_end_fails :
  Manager.__init__ current_date_world None tt empty_heap
  = (Ok current_date_manager, tt, started_heap 1)
  /\ (exists h1 h2,
        Manager.initialize current_date_world current_date_manager (started_heap 1)
        = (Ok tt, current_date_initialized, h1)
        /\ Manager.execute_tool current_date_world "current_date" date_only
             current_date_initialized h1
           = (Ok {| success := false; data := VNone;
                    error := Some "'coroutine' object has no attribute 'execute'" |},
              current_date_initialized, h2))
  /\ (exists h2,
        Manager.execute_tool current_date_world "current_date" date_only
          current_date_manager (started_heap 1)
        = (Ok {| success := false; data := VNone;
                 error := Some "'coroutine' object has no attribute 'execute'" |},
           current_date_initialized, h2)).
Proof.
  split; [exact current_date_manager_new |]. split.
  - eexists _, _. split; vm_compute; reflexivity.
  - eexists. vm_compute. reflexivity.
Qed.

(** * Further properties of the tool subsystem *)

(** ** The registry *)

Lemma enabled_tools_agree_enabled (self : ToolRegistry) (name : string) :
  Registry.is_tool_enabled self name = true ->
  exists tc, Registry.get_enabled_tools self !! name = Some tc.
Proof.
  rewrite is_tool_enabled_true. intros (tc & Ht & He). exists tc.
  by apply get_enabled_tools_lookup.
Qed.

Lemma enabled_tools_agree_disabled (self : ToolRegistry) (name : string) :
  Registry.is_tool_enabled self name = false ->
  Registry.get_enabled_tools self !! name = None.
Proof.
  intros Hd. destruct (Registry.get_enabled_tools self !! name) as [tc|] eqn:Hg; [|done].
  apply get_enabled_tools_lookup in Hg as [Ht He].
  unfold Registry.is_tool_enabled in Hd. rewrite Ht in Hd. congruence.
Qed.

(** X1.  [is_tool_enabled], [get_enabled_tools] and [get_tool_config] agree:
    a name is enabled exactly when [get_enabled_tools] has an entry for it,
    and that entry is the name's config, whose [enabled] flag is set. *)
Theorem enabled_tools_agree (self : ToolRegistry) (name : string) :
  (Registry.is_tool_enabled self name = true
   <-> is_Some (Registry.get_enabled_tools self !! name))
  /\ (forall tc,
        Registry.get_enabled_tools self !! name = Some tc ->
        Registry.get_tool_config self name = Some tc /\ enabled tc = true)
  /\ (Registry.is_tool_enabled self name = false ->
      Registry.get_enabled_tools self !! name = None).
Proof.
  split; [| split].
  - split; [apply enabled_tools_agree_enabled |].
    intros [tc Hg]. apply is_tool_enabled_true. exists tc.
    by apply get_enabled_tools_lookup.
  - intros tc Hg. by apply get_enabled_tools_lookup in Hg.
  - apply enabled_tools_agree_disabled.
Qed.

Lemma enabled_tools_agree_witness :
  Registry.get_enabled_tools (registry disabled_manager) !! "current_date" = None.
Proof.
  exact (proj2 (proj2 (enabled_tools_agree (registry disabled_manager) "current_date"))
               eq_refl).
Defined.

Lemma interpolate_value_unset (env : gmap string string) (v : value) :
  (forall name, v = VStr (placeholder name) -> env !! name = None) ->
  Registry.interpolate_value env v = v.
Proof.
  intros Hv. destruct v as [| | | |s| |]; try done.
  unfold Registry.interpolate_value.
  destruct (startswith "${" s) eqn:Hp; [|done].
  destruct (endswith "}" s) eqn:He; [|done]. cbn [andb].
  pose proof (matches_is_placeholder s Hp He) as Hs.
  unfold Registry.getenv. rewrite (Hv (slice_from_to_last 2 1 s)); [done |].
  by f_equal.
Qed.

(** X2.  When none of the variables that the config's placeholders name is
    set, [interpolate_config] returns the config unchanged; in particular
    with an empty environment. *)
Theorem interpolate_config_unset_identity (env : gmap string string)
    (cfg : gmap string value) :
  (forall k name, cfg !! k = Some (VStr (placeholder name)) -> env !! name = None) ->
  Registry.interpolate_config env cfg = cfg.
Proof.
  intros Hunset. apply map_eq. intros k.
  unfold Registry.interpolate_config. rewrite lookup_fmap.
  destruct (cfg !! k) as [v|] eqn:Hk; [|done]. cbn [fmap option_fmap option_map].
  f_equal. apply interpolate_value_unset. intros name ->. by apply (Hunset k).
Qed.

Lemma interpolate_config_unset_identity_witness :
  Registry.interpolate_config ∅ {[ "api_key" := VStr "${GOOGLE_API_KEY}"; "max_results" := VInt 5 ]}
  = {[ "api_key" := VStr "${GOOGLE_API_KEY}"; "max_results" := VInt 5 ]}.
Proof.
  apply interpolate_config_unset_identity. intros k name _. apply lookup_empty.
Defined.

(** X3.  A reload that succeeds replaces the held document wholesale by what
    the file holds now, whatever was held before: the document that the file
    validates to, or the empty document when the file is gone (the reload
    then succeeds and every tool disappears).  The path is kept. *)
Theorem reload_config_replaces_document (w : World) (self : ToolRegistry) (h : heap) :
  (files w !! config_path self = None ->
     exists h', Registry.reload_config w self h
                = (Ok tt, {| config_path := config_path self;
                             config := {| version := "1.0"; tools := ∅ |} |}, h'))
  /\ (forall f v c,
        files w !! config_path self = Some f ->
        json_load f = Ok v -> MCPConfig_new v = Ok c ->
        exists h', Registry.reload_config w self h
                   = (Ok tt, {| config_path := config_path self; config := c |}, h')).
Proof.
  split.
  - intros Hf. unfold Registry.reload_config. unfold_m.
    rewrite (load_config_absent w _ self h Hf). eexists. reflexivity.
  - intros f v c Hf Hj Hc.
    destruct (load_config_ok w (config_path self) self h f Hf) as (v' & c' & Hj' & Hc' & Hl).
    { unfold load_error. by rewrite Hj, Hc. }
    assert (v' = v) as -> by congruence. assert (c' = c) as -> by congruence.
    unfold Registry.reload_config. unfold_m. rewrite Hl. eexists. reflexivity.
Qed.

Lemma reload_config_replaces_document_witness :
  (exists h', Registry.reload_config absent_world (registry current_date_manager)
                (started_heap 1)
              = (Ok tt, registry (manager_of ∅), h'))
  /\ (exists h', Registry.reload_config (world_with (Json disabled_document))
                   (registry current_date_manager) (started_heap 1)
                 = (Ok tt, registry disabled_manager, h')).
Proof.
  split.
  - exact (proj1 (reload_config_replaces_document absent_world
                    (registry current_date_manager) (started_heap 1)) eq_refl).
  - exact (proj2 (reload_config_replaces_document (world_with (Json disabled_document))
                    (registry current_date_manager) (started_heap 1))
                 _ _ (config (registry disabled_manager)) eq_refl eq_refl eq_refl).
Defined.

(** X4.  [ToolManager(config_path)] raises exactly when the file at the path
    cannot be loaded, with that exception; otherwise it returns a manager
    whose registry holds the loaded document (the empty one for an absent
    file), with an empty cache, no tool mapping yet and no object allocated. *)
Theorem manager_init_outcomes (w : World) (cp : option string) (h : heap) :
  let p := match cp with
           | None => package_dir w +:+ "/mcp_config.json"
           | Some p => p
           end in
  (forall f e, files w !! p = Some f -> load_error f = Some e ->
     exists h', Manager.__init__ w cp tt h = (Raise e, tt, h'))
  /\ (files w !! p = None ->
      exists h', Manager.__init__ w cp tt h
                 = (Ok {| registry := {| config_path := p;
                                         config := {| version := "1.0"; tools := ∅ |} |};
                          loader := {| _tool_cache := ∅ |}; _tools := None |}, tt, h')
                 /\ next_id h' = next_id h)
  /\ (forall f v c, files w !! p = Some f -> json_load f = Ok v -> MCPConfig_new v = Ok c ->
      exists h', Manager.__init__ w cp tt h
                 = (Ok {| registry := {| config_path := p; config := c |};
                          loader := {| _tool_cache := ∅ |}; _tools := None |}, tt, h')
                 /\ next_id h' = next_id h).
Proof.
  intros p. unfold Manager.__init__, Registry.__init__, Loader.__init__.
  fold p. split; [| split].
  - intros f e Hf He.
    destruct (load_config_error w p tt h f e Hf He) as [tmpl Hl].
    unfold_m. rewrite Hl. eexists. reflexivity.
  - intros Hf. unfold_m. rewrite (load_config_absent w p tt h Hf).
    eexists. split; reflexivity.
  - intros f v c Hf Hj Hc.
    destruct (load_config_ok w p tt h f Hf) as (v' & c' & Hj' & Hc' & Hl).
    { unfold load_error. by rewrite Hj, Hc. }
    assert (v' = v) as -> by congruence. assert (c' = c) as -> by congruence.
    unfold_m. rewrite Hl. eexists. split; reflexivity.
Qed.

Lemma manager_init_outcomes_witness :
  exists h', Manager.__init__ (world_with (NotJson "Expecting value")) None tt empty_heap
             = (Raise {| exn_cls := JSONDecodeError; exn_msg := "Expecting value" |}, tt, h').
Proof.
  exact (proj1 (manager_init_outcomes (world_with (NotJson "Expecting value")) None
                  empty_heap) _ _ eq_refl eq_refl).
Defined.

(** ** The loader *)

Lemma load_tool_keeps_registry (w : World) (name : string) (m : ToolManager) (h : heap) :
  exists res m' h',
    Loader.load_tool w name m h = (Ok res, m', h')
    /\ registry m' = registry m
    /\ _tools m' = _tools m.
Proof.
  destruct (_tool_cache (loader m) !! name) as [t|] eqn:Hc.
  { eexists (Some t), m, _. split; [by apply load_tool_cached |]. done. }
  destruct (Registry.is_tool_enabled (registry m) name) eqn:Hen.
  2:{ eexists None, m, _. split; [by apply load_tool_not_enabled |]. done. }
  destruct (Loader.load_tool w name m h) as [[r m'] h'] eqn:Hl.
  destruct (load_tool_miss_enabled w name m h r m' h' Hc Hen Hl)
    as (res & evs & -> & _ & _ & _ & Hres).
  exists res, m', h'. split; [done |].
  destruct res as [t|].
  - destruct Hres as (-> & _). done.
  - destruct Hres as (-> & Hid). done.
Qed.

(** X5.  Awaiting [load_tool] never raises, whatever the world, the state
    and the tool class do: it returns an instance or [None].  It leaves the
    registry (and so the stored, un-interpolated config) and the manager's
    mapping untouched; when it returns an instance, that instance is what
    the cache holds under the name afterwards and the rest of the cache is
    unchanged; when it returns [None], the cache is unchanged and no object
    was allocated. *)
Theorem load_tool_never_raises (w : World) (name : string) (m : ToolManager) (h : heap) :
  exists res m' h',
    Loader.load_tool w name m h = (Ok res, m', h')
    /\ registry m' = registry m
    /\ _tools m' = _tools m
    /\ match res with
       | Some t => _tool_cache (loader m') = <[name := t]> (_tool_cache (loader m))
       | None => loader m' = loader m /\ next_id h' = next_id h
       end.
Proof.
  destruct (_tool_cache (loader m) !! name) as [t|] eqn:Hc.
  { eexists (Some t), m, _. split; [by apply load_tool_cached |].
    split; [done |]. split; [done |]. by rewrite insert_id. }
  destruct (Registry.is_tool_enabled (registry m) name) eqn:Hen.
  2:{ eexists None, m, _. split; [by apply load_tool_not_enabled |]. done. }
  destruct (Loader.load_tool w name m h) as [[r m'] h'] eqn:Hl.
  destruct (load_tool_miss_enabled w name m h r m' h' Hc Hen Hl)
    as (res & evs & -> & _ & _ & _ & Hres).
  exists res, m', h'. split; [done |].
  destruct res as [t|].
  - destruct Hres as (-> & _). done.
  - destruct Hres as (-> & Hid). done.
Qed.

(** X6.  On a cache miss for an enabled tool that has an implementation
    module with the class named by [_to_pascal_case] and whose constructor
    succeeds, [load_tool] returns a new object of that class, built with the
    config interpolated in the environment of the call, under a fresh
    identity, and caches it. *)
Theorem load_tool_constructs (w : World) (name : string) (m : ToolManager) (h : heap)
    (tc : ToolConfig) (module_path : string) (md : gmap string tool_class)
    (c : tool_class) :
  _tool_cache (loader m) !! name = None ->
  tools (config (registry m)) !! name = Some tc ->
  enabled tc = true ->
  Loader.TOOL_IMPLEMENTATIONS !! name = Some module_path ->
  sys_modules w !! module_path = Some md ->
  md !! Loader._to_pascal_case name = Some c ->
  (tc_init c (Registry.interpolate_config (environ (amb w)) (tc_config tc))).2 = None ->
  let t := {| obj_id := next_id h; cls := c;
              self_config := Registry.interpolate_config (environ (amb w)) (tc_config tc) |} in
  exists h',
    Loader.load_tool w name m h
    = (Ok (Some t),
       {| registry := registry m;
          loader := {| _tool_cache := <[name := t]> (_tool_cache (loader m)) |};
          _tools := _tools m |}, h')
    /\ next_id h' = Datatypes.S (next_id h).
Proof.
  intros Hc Ht He Himpl Hmod Hcls Hinit t.
  unfold Loader.load_tool, Loader.construct, Loader._import_module, Loader.cache_store,
    Registry.get_tool_config, Registry.is_tool_enabled.
  unfold_m. rewrite Hc, Ht, He, Himpl, Hmod, Hcls, Hinit. cbn [negb].
  eexists. split; reflexivity.
Qed.

Lemma load_tool_constructs_witness :
  exists h',
    Loader.load_tool current_date_world "current_date" current_date_manager (started_heap 1)
    = (Ok (Some current_date_instance), current_date_loaded, h')
    /\ next_id h' = 1%nat.
Proof.
  exact (load_tool_constructs current_date_world "current_date" current_date_manager
           (started_heap 1) {| enabled := true; description := "d"; tc_config := ∅ |}
           "app.mcp.tools.current_date" {[ "CurrentDate" := CurrentDate ]} CurrentDate
           eq_refl eq_refl eq_refl eq_refl eq_refl eq_refl eq_refl).
Defined.

(** X7.  An enabled tool that cannot be built is simply unavailable: when
    there is no implementation entry for the name, or the module cannot be
    imported, or it lacks the class, or the constructor raises, [load_tool]
    returns [None], caches nothing, allocates nothing and leaves the manager
    as it was; the failure is not remembered, so the next call tries again. *)
Theorem load_tool_unavailable (w : World) (name : string) (m : ToolManager) (h : heap)
    (tc : ToolConfig) :
  _tool_cache (loader m) !! name = None ->
  tools (config (registry m)) !! name = Some tc ->
  enabled tc = true ->
  (Loader.TOOL_IMPLEMENTATIONS !! name = None
   \/ (exists module_path,
         Loader.TOOL_IMPLEMENTATIONS !! name = Some module_path
         /\ (sys_modules w !! module_path = None
             \/ exists md,
                 sys_modules w !! module_path = Some md
                 /\ (md !! Loader._to_pascal_case name = None
                     \/ exists c e,
                         md !! Loader._to_pascal_case name = Some c
                         /\ (tc_init c (Registry.interpolate_config (environ (amb w))
                                          (tc_config tc))).2 = Some e)))) ->
  exists h',
    Loader.load_tool w name m h = (Ok None, m, h')
    /\ next_id h' = next_id h
    /\ exists tmpl args, last (trace h') = Some (Log loader_logger ERROR tmpl args).
Proof.
  intros Hc Ht He Hwhy.
  unfold Loader.load_tool, Loader.construct, Loader._import_module, Loader.cache_store,
    Registry.get_tool_config, Registry.is_tool_enabled.
  unfold_m. rewrite Hc, Ht, He. cbn [negb].
  destruct Hwhy as [Himpl | (mp & Himpl & [Hmod | (md & Hmod & [Hcls | (c & e & Hcls & Hinit)])])];
    rewrite Himpl; [| rewrite Hmod | rewrite Hmod, Hcls | rewrite Hmod, Hcls, Hinit];
    cbn [trace next_id];
    (eexists; split; [reflexivity |]; split; [reflexivity |]);
    cbn [trace]; do 2 eexists; apply last_snoc.
Qed.

Lemma load_tool_unavailable_witness :
  exists h',
    Loader.load_tool (world_with (Json foo_document)) "foo" foo_manager (started_heap 1)
    = (Ok None, foo_manager, h')
    /\ next_id h' = next_id (started_heap 1).
Proof.
  destruct (load_tool_unavailable (world_with (Json foo_document)) "foo" foo_manager
              (started_heap 1)
              {| enabled := true; description := "no implementation";
                 tc_config := {[ "key" := VStr "${MY_VAR}" ]} |}
              eq_refl eq_refl eq_refl (or_introl eq_refl)) as (h' & Hl & Hid & _).
  exists h'. split; [exact Hl | exact Hid].
Defined.

(** X8.  [load_all_tools] instantiates nothing: it returns one entry per
    enabled tool, each the coroutine object of the un-awaited
    [load_tool(name)] and never a tool object; the cache, the registry and
    the mapping are unchanged, no object is allocated, and only log lines
    are written. *)
Theorem load_all_tools_coroutines (w : World) (m : ToolManager) (h : heap) :
  exists ts h',
    Loader.load_all_tools w m h = (Ok ts, m, h')
    /\ next_id h' = next_id h
    /\ Forall is_log (new_events h h')
    /\ dom ts = dom (Registry.get_enabled_tools (registry m))
    /\ forall name o, ts !! name = Some o ->
         o = Coroutine_load_tool name
         /\ Registry.is_tool_enabled (registry m) name = true.
Proof.
  unfold Loader.load_all_tools. unfold_m.
  eexists _, _. split; [reflexivity |]. split; [reflexivity |]. split.
  { erewrite new_events_app by reflexivity. logs_only. }
  split.
  - apply set_eq. intros name. rewrite !elem_of_dom, load_all_tools_fold_lookup.
    destruct (Registry.get_enabled_tools (registry m) !! name); split; intros [? ?]; eauto; done.
  - intros name o Ho. split; [| by eapply fold_tools_enabled].
    rewrite load_all_tools_fold_lookup in Ho.
    destruct (Registry.get_enabled_tools (registry m) !! name); by simplify_eq.
Qed.

(** X9.  Clearing the cache forgets every instance: after [clear_cache] the
    cache is empty while the registry and the mapping are kept and nothing
    is allocated; and when a tool that was loaded before is loaded again
    after the clearing, it is built anew: the call interpolates and
    constructs again and returns a different object, with the next fresh
    identity, which is then the one the cache holds. *)
Theorem clear_cache_forgets (w1 w2 : World) (name : string)
    (m : ToolManager) (h : heap) (t t' : tool_instance)
    (r2 : result unit) (m1 m2 m3 : ToolManager) (h1 h2 h3 : heap) :
  _tool_cache (loader m) !! name = None ->
  Registry.is_tool_enabled (registry m) name = true ->
  Loader.load_tool w1 name m h = (Ok (Some t), m1, h1) ->
  Loader.clear_cache m1 h1 = (r2, m2, h2) ->
  Loader.load_tool w2 name m2 h2 = (Ok (Some t'), m3, h3) ->
  r2 = Ok tt
  /\ _tool_cache (loader m2) = ∅
  /\ registry m2 = registry m /\ _tools m2 = _tools m
  /\ next_id h2 = next_id h1
  /\ obj_id t' = Datatypes.S (obj_id t) /\ t' <> t
  /\ CallInterpolate name ∈ new_events h2 h3
  /\ CallConstruct name ∈ new_events h2 h3
  /\ _tool_cache (loader m3) = {[ name := t' ]}.
Proof.
  intros Hc Hen Hl Hcl Hl2.
  destruct (load_tool_miss_enabled w1 name m h _ _ _ Hc Hen Hl)
    as (res & evs & [= <-] & Hev & _ & _ & -> & Hid & Hnext & _).
  unfold Loader.clear_cache in Hcl. unfold_m. cbn [registry loader _tools] in Hcl.
  injection Hcl as <- <- <-.
  match type of Hl2 with
  | Loader.load_tool _ _ ?m2 ?h2 = _ =>
      destruct (load_tool_miss_enabled w2 name m2 h2 _ _ _ (lookup_empty _) Hen Hl2)
        as (res2 & evs2 & [= <-] & Hev2 & _ & Hint & -> & Hid2 & _ & Hcon)
  end.
  cbn [next_id registry loader _tools _tool_cache] in *.
  split; [done |]. split; [done |]. split; [done |]. split; [done |]. split; [done |].
  split; [congruence |]. split; [intros ->; lia |].
  split; [by rewrite (new_events_app _ _ _ Hev2) |].
  split; [by rewrite (new_events_app _ _ _ Hev2) |].
  by rewrite insert_empty.
Qed.

Lemma current_date_cleared :
  Loader.clear_cache current_date_loaded loaded_heap
  = (Ok tt, current_date_manager, cleared_heap).
Proof. reflexivity. Qed.

Lemma current_date_load_again :
  Loader.load_tool current_date_world "current_date" current_date_manager cleared_heap
  = (Ok (Some current_date_second_instance), current_date_loaded_again, loaded_again_heap).
Proof. reflexivity. Qed.

Lemma clear_cache_forgets_witness :
  _tool_cache (loader current_date_manager) = ∅
  /\ obj_id current_date_second_instance = Datatypes.S (obj_id current_date_instance)
  /\ current_date_second_instance <> current_date_instance
  /\ CallConstruct "current_date" ∈ new_events cleared_heap loaded_again_heap.
Proof.
  destruct (clear_cache_forgets current_date_world current_date_world "current_date"
              current_date_manager (started_heap 1)
              current_date_instance current_date_second_instance
              (Ok tt) current_date_loaded current_date_manager current_date_loaded_again
              loaded_heap cleared_heap loaded_again_heap
              eq_refl eq_refl current_date_load current_date_cleared
              current_date_load_again)
    as (_ & Hempty & _ & _ & _ & Hid & Hne & _ & Hcon & _).
  split; [exact Hempty |]. split; [exact Hid |]. split; [exact Hne | exact Hcon].
Defined.

(** ** Class names *)

Lemma join_app (l1 l2 : list string) : join (l1 ++ l2) = join l1 +:+ join l2.
Proof.
  induction l1 as [|w l1 IH]; [done |].
  cbn [app]. unfold join in *. cbn [fold_right]. rewrite IH.
  induction w as [|c w IHw]; [done |]. rewrite !app_cons. by f_equal.
Qed.

Lemma split_on_app (sep : ascii) (cur a b : string) :
  split_on sep cur (a +:+ String sep b) = split_on sep cur a ++ split_on sep EmptyString b.
Proof.
  revert cur. induction a as [|c a IH]; intros cur.
  - change (EmptyString +:+ String sep b) with (String sep b).
    cbn [split_on]. by rewrite Ascii.eqb_refl.
  - rewrite app_cons. cbn [split_on]. destruct (Ascii.eqb c sep); [| apply IH].
    rewrite IH. reflexivity.
Qed.

Lemma ascii_upper_not_underscore (c : ascii) : c <> "_"%char -> ascii_upper c <> "_"%char.
Proof.
  intros Hc. unfold ascii_upper. destruct (is_lower_ascii c) eqn:Hl; [|done].
  unfold is_lower_ascii in Hl. apply andb_prop in Hl as [H1 H2].
  apply Nat.leb_le in H1, H2. intros Hu.
  apply (f_equal nat_of_ascii) in Hu. rewrite nat_ascii_embedding in Hu by lia.
  change (nat_of_ascii "_") with 95%nat in Hu. lia.
Qed.

Lemma ascii_lower_not_underscore (c : ascii) : c <> "_"%char -> ascii_lower c <> "_"%char.
Proof.
  intros Hc. unfold ascii_lower. destruct (is_upper_ascii c) eqn:Hl; [|done].
  unfold is_upper_ascii in Hl. apply andb_prop in Hl as [H1 H2].
  apply Nat.leb_le in H1, H2. intros Hu.
  apply (f_equal nat_of_ascii) in Hu. rewrite nat_ascii_embedding in Hu by lia.
  change (nat_of_ascii "_") with 95%nat in Hu. lia.
Qed.

Lemma chars_app (a b : string) : chars (a +:+ b) = chars a ++ chars b.
Proof.
  induction a as [|c a IH]; [done |]. rewrite app_cons. unfold chars in *.
  cbn [list_ascii_of_string]. by rewrite IH.
Qed.

Lemma capitalize_no_underscore (s : string) :
  "_"%char ∉ chars s -> "_"%char ∉ chars (capitalize s).
Proof.
  destruct s as [|c s]; [done |]. unfold chars. cbn [capitalize list_ascii_of_string].
  rewrite !not_elem_of_cons. intros [Hc Hs]. split.
  - intros Heq. by apply (ascii_upper_not_underscore c).
  - clear Hc. induction s as [|d s IH]; [apply not_elem_of_nil |].
    unfold lower in *. cbn [str_map list_ascii_of_string] in *.
    rewrite not_elem_of_cons in Hs. destruct Hs as [Hd Hs].
    rewrite not_elem_of_cons. split; [| by apply IH].
    intros Heq. by apply (ascii_lower_not_underscore d).
Qed.

Lemma split_on_no_sep (sep : ascii) (cur s : string) :
  sep ∉ chars cur -> Forall (fun word => sep ∉ chars word) (split_on sep cur s).
Proof.
  revert cur. induction s as [|c s IH]; intros cur Hcur; cbn [split_on].
  - by apply Forall_singleton.
  - destruct (Ascii.eqb c sep) eqn:Hc.
    + apply Forall_cons. split; [done |]. apply IH. apply not_elem_of_nil.
    + apply IH. rewrite chars_app. apply Ascii.eqb_neq in Hc.
      rewrite not_elem_of_app. split; [done |].
      unfold chars. cbn. rewrite not_elem_of_cons. split; [congruence | apply not_elem_of_nil].
Qed.

Lemma join_no_char (c : ascii) (ws : list string) :
  Forall (fun word => c ∉ chars word) ws -> c ∉ chars (join ws).
Proof.
  induction 1 as [|word ws Hw _ IH]; [apply not_elem_of_nil |].
  unfold join in *. cbn [fold_right]. rewrite chars_app, not_elem_of_app. by split.
Qed.

(** X10.  [_to_pascal_case] works word by word: the class name of
    [a_b] is the class name of [a] followed by that of [b], the class name
    of a string without underscore is its capitalisation, and no class name
    contains an underscore. *)
Theorem to_pascal_case_words (a b : string) :
  Loader._to_pascal_case (a +:+ "_" +:+ b)
  = Loader._to_pascal_case a +:+ Loader._to_pascal_case b
  /\ ("_"%char ∉ chars a -> Loader._to_pascal_case a = capitalize a)
  /\ "_"%char ∉ chars (Loader._to_pascal_case a).
Proof.
  split; [| split].
  - unfold Loader._to_pascal_case.
    change ("_" +:+ b) with (String "_" b).
    by rewrite split_on_app, fmap_app, join_app.
  - intros Ha. unfold Loader._to_pascal_case.
    assert (forall cur s, "_"%char ∉ chars s ->
              split_on "_" cur s = [cur +:+ s]) as Hsplit.
    { intros cur s. revert cur. induction s as [|c s IH]; intros cur Hs.
      - cbn. f_equal. clear. induction cur as [|d cur IH]; [done |].
        rewrite app_cons. by f_equal.
      - unfold chars in Hs. cbn [list_ascii_of_string] in Hs.
        rewrite not_elem_of_cons in Hs. destruct Hs as [Hc Hs].
        cbn [split_on]. destruct (Ascii.eqb c "_") eqn:Hcs.
        + apply Ascii.eqb_eq in Hcs. congruence.
        + rewrite IH by done. f_equal.
          clear. induction cur as [|d cur IH]; [done |].
          rewrite !app_cons. by f_equal. }
    rewrite (Hsplit EmptyString a Ha).
    change (EmptyString +:+ a) with a. cbn [fmap list_fmap]. unfold join. cbn [fold_right].
    generalize (capitalize a). intros s. induction s as [|c s IH]; [done |].
    rewrite app_cons. by f_equal.
  - unfold Loader._to_pascal_case. apply join_no_char.
    apply Forall_fmap. eapply Forall_impl.
    + apply (split_on_no_sep "_" EmptyString a). apply not_elem_of_nil.
    + intros word Hw. cbn. by apply capitalize_no_underscore.
Qed.

Lemma to_pascal_case_words_witness :
  Loader._to_pascal_case "google_search" = "GoogleSearch"
  /\ Loader._to_pascal_case "sqlite" = "Sqlite".
Proof.
  split.
  - exact (proj1 (to_pascal_case_words "google" "search")).
  - apply (proj1 (proj2 (to_pascal_case_words "sqlite" ""))).
    vm_compute. intros H. repeat (apply elem_of_cons in H as [H|H]; [discriminate H |]).
    by apply elem_of_nil in H.
Defined.

(** ** The manager *)

Lemma coroutine_mapping_lookup (self : ToolRegistry) (name : string) :
  coroutine_mapping self !! name
  = if Registry.is_tool_enabled self name then Some (Coroutine_load_tool name) else None.
Proof.
  unfold coroutine_mapping. rewrite load_all_tools_fold_lookup.
  destruct (Registry.is_tool_enabled self name) eqn:Hen.
  - apply enabled_tools_agree_enabled in Hen as [tc ->]. done.
  - by rewrite (enabled_tools_agree_disabled _ _ Hen).
Qed.

(** X11.  [initialize] replaces the mapping, it does not merge: whatever the
    manager held before, afterwards the mapping has exactly the enabled tool
    names of the held document, each with the coroutine object of the
    un-awaited [load_tool]; the registry and the cache are untouched and
    nothing is allocated, so initializing again changes nothing more. *)
Theorem initialize_replaces_mapping (w : World) (m : ToolManager) (h : heap) :
  exists h',
    Manager.initialize w m h
    = (Ok tt, {| registry := registry m; loader := loader m;
                 _tools := Some (coroutine_mapping (registry m)) |}, h')
    /\ next_id h' = next_id h
    /\ (forall name,
          coroutine_mapping (registry m) !! name
          = if Registry.is_tool_enabled (registry m) name
            then Some (Coroutine_load_tool name) else None)
    /\ forall w2, exists h'',
         Manager.initialize w2 {| registry := registry m; loader := loader m;
                                  _tools := Some (coroutine_mapping (registry m)) |} h'
         = (Ok tt, {| registry := registry m; loader := loader m;
                      _tools := Some (coroutine_mapping (registry m)) |}, h'').
Proof.
  unfold Manager.initialize, Loader.load_all_tools, Manager.set_tools. unfold_m.
  eexists. split; [reflexivity |]. split; [reflexivity |].
  split; [apply coroutine_mapping_lookup |].
  intros w2. eexists. reflexivity.
Qed.

Lemma run_op_mapping (w : World) (o : op) (m : ToolManager) (h : heap) r m' h' :
  mapping_current m -> o <> OpReloadRegistry -> run_op w o m h = (r, m', h') ->
  mapping_current m'.
Proof.
  intros Hm Hop.
  destruct o as [|name kwargs| |name| | |]; cbn [run_op]; [| | | | | | done].
  - unfold Manager.initialize, Loader.load_all_tools, Manager.set_tools. unfold_m.
    intros; simplify_eq. by intros ts [= <-].
  - destruct (execute_tool_spec w name kwargs m h) as (res & evs & h1 & He & _).
    unfold_m. rewrite He. intros; simplify_eq. intros ts [= <-].
    unfold tools_in_use. destruct (_tools m) as [ts|] eqn:Hts; [by apply Hm | done].
  - unfold Manager.reload_config, Manager.reload_registry, Registry.reload_config,
      Loader.clear_cache, Manager.set_tools. unfold_m.
    destruct (Registry._load_config w (config_path (registry m)) (registry m) h)
      as [[[c|e] s1] h1] eqn:Hload;
      apply load_config_frame in Hload as (-> & _);
      intros; simplify_eq.
    + by intros ts.
    + by destruct m.
  - destruct (load_tool_keeps_registry w name m h) as (res & m1 & h1 & Hl & Hreg & Hts).
    unfold_m. rewrite Hl. intros; simplify_eq.
    intros ts Ht. rewrite Hreg. apply Hm. congruence.
  - unfold Loader.load_all_tools. unfold_m. by intros; simplify_eq.
  - unfold Loader.clear_cache. unfold_m. intros; simplify_eq. exact Hm.
Qed.

Lemma managed_mapping_current (m : ToolManager) (h : heap) :
  managed m h -> mapping_current m.
Proof.
  induction 1 as [w cp h0 m h Hnew | w o m h r m' h' _ IH Ho Hop].
  - unfold Manager.__init__, Registry.__init__, Loader.__init__ in Hnew.
    unfold_m. repeat case_match; simplify_eq; by intros ts.
  - by eapply run_op_mapping.
Qed.

Lemma tools_in_use_current (m : ToolManager) :
  mapping_current m -> tools_in_use m = coroutine_mapping (registry m).
Proof.
  intros Hm. unfold tools_in_use. destruct (_tools m) as [ts|] eqn:Hts; [by apply Hm | done].
Qed.

(** What [execute_tool] does when the mapping, if held, is the one of the
    held document. *)
Lemma execute_tool_current (w : World) (m : ToolManager) (h : heap)
    (name : string) (kwargs : gmap string value) :
  mapping_current m ->
  exists h',
    Manager.execute_tool w name kwargs m h
    = (Ok (if Registry.is_tool_enabled (registry m) name
           then failed no_execute_attribute
           else not_found name),
       {| registry := registry m; loader := loader m;
          _tools := Some (coroutine_mapping (registry m)) |}, h')
    /\ next_id h' = next_id h
    /\ Forall (fun ev => exists src l tmpl args,
                            ev = Log src l tmpl args /\ src <> tools_logger)
              (new_events h h').
Proof.
  intros Hr.
  unfold Manager.execute_tool, Manager.initialize, Loader.load_all_tools,
    Manager.set_tools, Manager.call_execute.
  pose proof (tools_in_use_current m Hr) as Huse.
  pose proof (coroutine_mapping_lookup (registry m) name) as Hlook.
  unfold_m. destruct m as [reg ld [ts|]]; cbn [_tools registry loader] in *;
    unfold tools_in_use in Huse; cbn [_tools] in Huse; subst;
    fold (coroutine_mapping reg); rewrite Hlook;
    destruct (Registry.is_tool_enabled reg name);
    cbn [trace next_id];
    eexists; (split; [reflexivity |]); (split; [reflexivity |]);
    (erewrite new_events_app;
     [| first [cbn [trace]; rewrite <- ?app_assoc; reflexivity
              | symmetry; apply app_nil_r]]);
    repeat first [apply Forall_nil_2 | apply Forall_app_2
                 | apply Forall_cons_2; [by eexists _, _, _, _ |]].
Qed.

(** What [execute_tool] does when the mapping holds coroutine objects
    only. *)
Lemma execute_tool_coroutines (w : World) (m : ToolManager) (h : heap)
    (name : string) (kwargs : gmap string value) :
  coroutines_only m ->
  exists h',
    Manager.execute_tool w name kwargs m h
    = (Ok match tools_in_use m !! name with
          | Some _ => failed no_execute_attribute
          | None => not_found name
          end,
       {| registry := registry m; loader := loader m;
          _tools := Some (tools_in_use m) |}, h')
    /\ next_id h' = next_id h
    /\ Forall (fun ev => exists src l tmpl args,
                            ev = Log src l tmpl args /\ src <> tools_logger)
              (new_events h h').
Proof.
  intros Hr.
  pose proof (fun o => tools_in_use_coroutines m name o Hr) as Hco.
  unfold Manager.execute_tool, Manager.initialize, Loader.load_all_tools,
    Manager.set_tools, Manager.call_execute.
  unfold_m. destruct m as [reg ld [ts|]]; unfold tools_in_use in *;
    cbn [_tools registry loader] in *;
    match goal with
    | |- context [?mp !! name] => destruct (mp !! name) as [o|] eqn:Ho
    end;
    try (pose proof (Hco _ eq_refl) as ->);
    cbn [trace next_id];
    eexists; (split; [reflexivity |]); (split; [reflexivity |]);
    (erewrite new_events_app;
     [| first [cbn [trace]; rewrite <- ?app_assoc; reflexivity
              | symmetry; apply app_nil_r]]);
    repeat first [apply Forall_nil_2 | apply Forall_app_2
                 | apply Forall_cons_2; [by eexists _, _, _, _ |]].
Qed.

(** X12.  Through the manager no tool ever runs: in every state reachable
    from [ToolManager()] by the calls of the manager, of its loader and of
    its registry, for every tool name and arguments and in every world,
    [execute_tool] returns an envelope with [success] false and no data:
    the missing-[execute] failure of the coroutine object when the mapping
    in use holds the name, and "not found or not enabled" otherwise.
    Nothing is allocated and the only events are log lines of the manager
    and the loader: no tool code runs.  The mapping in use holds exactly the
    names that the held document enables when the manager holds no mapping
    yet, and in every state reached without the registry's own
    [reload_config]. *)
Theorem execute_tool_never_succeeds (w : World) (m : ToolManager) (h : heap)
    (name : string) (kwargs : gmap string value) :
  reachable m h ->
  (exists m' h',
     Manager.execute_tool w name kwargs m h
     = (Ok match tools_in_use m !! name with
           | Some _ => failed no_execute_attribute
           | None => not_found name
           end, m', h')
     /\ next_id h' = next_id h
     /\ Forall (fun ev => exists src l tmpl args,
                             ev = Log src l tmpl args /\ src <> tools_logger)
               (new_events h h'))
  /\ (_tools m = None \/ managed m h ->
      tools_in_use m !! name
      = if Registry.is_tool_enabled (registry m) name
        then Some (Coroutine_load_tool name) else None).
Proof.
  intros Hr. split.
  - apply reachable_coroutines in Hr.
    destruct (execute_tool_coroutines w m h name kwargs Hr) as (h' & He & Hid & Hev).
    eauto.
  - intros Hm. rewrite <- coroutine_mapping_lookup.
    rewrite tools_in_use_current; [done |].
    destruct Hm as [Hnone | Hm]; [| by eapply managed_mapping_current].
    intros ts Hts. congruence.
Qed.

Lemma execute_tool_never_succeeds_witness :
  exists m' h',
    Manager.execute_tool current_date_world "current_date" date_only
      (stale_manager (tools (config (registry disabled_manager)))) stale_heap
    = (Ok (not_found "current_date"), m', h')
    /\ next_id h' = next_id stale_heap.
Proof.
  destruct (execute_tool_never_succeeds current_date_world
              (stale_manager (tools (config (registry disabled_manager)))) stale_heap
              "current_date" date_only stale_disabled_reachable)
    as ((m' & h' & He & Hid & _) & _).
  exists m', h'. split; [exact He | exact Hid].
Defined.

Lemma schema_coroutines (m : ToolManager) (name : string) :
  coroutines_only m -> Manager._get_tool_schema m name = ∅.
Proof.
  intros Hm. unfold Manager._get_tool_schema.
  destruct (_tools m) as [ts|] eqn:Hts; [|done].
  destruct (ts !! name) as [o|] eqn:Ho; [|done].
  by rewrite (Hm ts name o Hts Ho).
Qed.

(** X13.  In every reachable state the schema of every tool is the empty
    mapping, since the mapping never holds a tool object; and
    [get_available_tools] lists exactly the enabled tools of the held
    document, each once, with its description, [enabled] true and an empty
    input schema. *)
Theorem available_tools_have_empty_schema (m : ToolManager) (h : heap) :
  reachable m h ->
  (forall name, Manager._get_tool_schema m name = ∅)
  /\ length (get_available_tools m) = size (Registry.get_enabled_tools (registry m))
  /\ (forall info,
        info ∈ get_available_tools m
        <-> exists tc,
              tools (config (registry m)) !! ti_name info = Some tc
              /\ enabled tc = true
              /\ info = {| ti_name := ti_name info; ti_description := description tc;
                           ti_enabled := true; input_schema := ∅ |}).
Proof.
  intros Hr. apply reachable_coroutines in Hr.
  split; [intros name; by apply schema_coroutines |]. split.
  - unfold get_available_tools. by rewrite length_fmap, length_map_to_list.
  - intros info. unfold get_available_tools. rewrite list_elem_of_fmap. split.
    + intros ([name tc] & -> & Hin). apply elem_of_map_to_list in Hin.
      apply get_enabled_tools_lookup in Hin as [Ht He].
      exists tc. cbn. rewrite (schema_coroutines m name Hr). done.
    + intros (tc & Ht & He & Hinfo). exists (ti_name info, tc). split.
      * rewrite Hinfo at 1. cbn. by rewrite (schema_coroutines m _ Hr).
      * apply elem_of_map_to_list. by apply get_enabled_tools_lookup.
Qed.

Lemma available_tools_have_empty_schema_witness :
  Manager._get_tool_schema current_date_loaded "current_date" = ∅
  /\ length (get_available_tools current_date_loaded) = 1%nat.
Proof.
  destruct (available_tools_have_empty_schema current_date_loaded loaded_heap)
    as (Hs & Hlen & _).
  - apply (reachable_op current_date_world (OpLoadTool "current_date")
             current_date_manager (started_heap 1) (Ok tt)).
    + exact (reachable_new _ _ _ _ _ current_date_manager_new).
    + reflexivity.
  - split; [apply Hs | exact Hlen].
Defined.

(** X14.  A reload through the manager that succeeds leaves the manager
    with the document now in the file, an empty cache and no mapping,
    whatever it held before (even tool objects); the next [execute_tool]
    answers from the new document alone: "not found or not enabled" for a
    name it does not enable. *)
Theorem manager_reload_takes_effect (w : World) (m : ToolManager) (h : heap)
    (f : file) (v : value) (c : MCPConfig) :
  files w !! config_path (registry m) = Some f ->
  json_load f = Ok v ->
  MCPConfig_new v = Ok c ->
  let m' := {| registry := {| config_path := config_path (registry m); config := c |};
               loader := {| _tool_cache := ∅ |};
               _tools := None |} in
  exists h',
    Manager.reload_config w m h = (Ok tt, m', h')
    /\ next_id h' = next_id h
    /\ forall w2 name kwargs, exists m2 h2,
         Manager.execute_tool w2 name kwargs m' h'
         = (Ok (if Registry.is_tool_enabled (registry m') name
                then failed no_execute_attribute
                else not_found name), m2, h2).
Proof.
  intros Hf Hj Hc m'.
  destruct (load_config_ok w (config_path (registry m)) (registry m) h f Hf)
    as (v' & c' & Hj' & Hc' & Hl).
  { unfold load_error. by rewrite Hj, Hc. }
  assert (v' = v) as -> by congruence. assert (c' = c) as -> by congruence.
  unfold Manager.reload_config, Manager.reload_registry, Registry.reload_config,
    Loader.clear_cache, Manager.set_tools. unfold_m. rewrite Hl.
  cbn [registry loader _tools trace next_id].
  eexists. split; [reflexivity |]. split; [reflexivity |].
  intros w2 name kwargs.
  edestruct (execute_tool_current w2 m') as (h2 & He & _); [by intros ts |].
  eexists _, _. exact He.
Qed.

Lemma manager_reload_takes_effect_witness :
  exists h',
    Manager.reload_config (world_with (Json disabled_document))
      current_date_awaited loaded_heap
    = (Ok tt, disabled_manager, h')
    /\ next_id h' = next_id loaded_heap.
Proof.
  destruct (manager_reload_takes_effect (world_with (Json disabled_document))
              current_date_awaited loaded_heap _ _ (config (registry disabled_manager))
              eq_refl eq_refl eq_refl) as (h' & Hr & Hid & _).
  exists h'. split; [exact Hr | exact Hid].
Defined.

(** ** The tools *)

Lemma format_in_spec (format : value) (l : list string) :
  format_in format l = true <-> exists s, format = VStr s /\ s ∈ l.
Proof.
  destruct format; cbn; try (split; [discriminate | intros (? & ? & ?); discriminate]).
  rewrite bool_decide_eq_true. split; [eauto | by intros (? & [= <-] & ?)].
Qed.

(** X15.  What [CurrentDate.execute] returns, for any [format] value: always
    [timestamp] and [unix_timestamp]; [date] and [date_readable] exactly
    when the format is "full" or "date_only"; [time] and [time_with_tz]
    exactly when it is "full" or "time_only".  Any other value, "iso" of the
    schema's enum included, gives the two timestamps only; without
    [format] the result is that of "full"; and a keyword other than
    [format] makes the call raise a [TypeError]. *)
Theorem CurrentDate_execute_fields (self_config : gmap string value) (a : ambient)
    (format : value) :
  (exists d,
     (CurrentDate_execute self_config {[ "format" := format ]} a).2 = Returns (VDict d)
     /\ d !! "timestamp" = Some (VStr (isoformat (utcnow a)))
     /\ d !! "unix_timestamp" = Some (VInt (posix_timestamp a (utcnow a)))
     /\ (is_Some (d !! "date") <-> format = VStr "full" \/ format = VStr "date_only")
     /\ (is_Some (d !! "date_readable") <-> format = VStr "full" \/ format = VStr "date_only")
     /\ (is_Some (d !! "time") <-> format = VStr "full" \/ format = VStr "time_only")
     /\ (is_Some (d !! "time_with_tz") <-> format = VStr "full" \/ format = VStr "time_only"))
  /\ (CurrentDate_execute self_config ∅ a).2
     = (CurrentDate_execute self_config {[ "format" := VStr "full" ]} a).2
  /\ (forall kwargs k,
        is_Some (kwargs !! k) -> k <> "format" ->
        exists e, CurrentDate_execute self_config kwargs a = ([], Raises e)
                  /\ exn_cls e = TypeError).
Proof.
  split; [| split].
  - unfold CurrentDate_execute.
    assert (bool_decide (dom ({[ "format" := format ]} : gmap string value)
                         ⊆ ({[ "format" ]} : gset string)) = true) as ->.
    { apply bool_decide_eq_true. by rewrite dom_singleton_L. }
    rewrite lookup_singleton_eq.
    change (default (VStr "full") (Some format)) with format.
    assert (forall l, format_in format l = true <-> exists s, format = VStr s /\ s ∈ l)
      as Hin by (intros; apply format_in_spec).
    assert (format_in format ["full"; "date_only"] = true
            <-> format = VStr "full" \/ format = VStr "date_only") as Hdate.
    { rewrite Hin. split.
      - intros (s & -> & Hs). set_solver.
      - intros [-> | ->]; eexists; (split; [reflexivity | set_solver]). }
    assert (format_in format ["full"; "time_only"] = true
            <-> format = VStr "full" \/ format = VStr "time_only") as Htime.
    { rewrite Hin. split.
      - intros (s & -> & Hs). set_solver.
      - intros [-> | ->]; eexists; (split; [reflexivity | set_solver]). }
    clear Hin.
    destruct (format_in format ["full"; "date_only"]);
      destruct (format_in format ["full"; "time_only"]);
      cbn [snd]; eexists; (split; [reflexivity |]);
      rewrite <- Hdate, <- Htime;
      (split; [reflexivity |]); (split; [reflexivity |]);
      repeat split;
      first [ reflexivity
            | intros _; eexists; reflexivity
            | intros [x Hx]; vm_compute in Hx; discriminate Hx
            | discriminate ].
  - reflexivity.
  - intros kwargs k Hk Hne. unfold CurrentDate_execute.
    rewrite bool_decide_eq_false_2; [by eexists |].
    intros Hsub. apply elem_of_dom in Hk. apply Hsub in Hk. set_solver.
Qed.

Lemma CurrentDate_execute_fields_witness :
  exists e, CurrentDate_execute ∅ {[ "fmt" := VStr "full" ]} example_ambient = ([], Raises e)
            /\ exn_cls e = TypeError.
Proof.
  apply (proj2 (proj2 (CurrentDate_execute_fields ∅ example_ambient VNone))
           {[ "fmt" := VStr "full" ]} "fmt").
  - by eexists.
  - discriminate.
Defined.

(** X16.  [GoogleSearch.execute] without a usable key: when the config has
    no [api_key], or a falsy one (null, the empty string), or a string that
    begins with "${" (a placeholder that interpolation left in place), the
    call returns the "API key not configured" failure mapping, with no data,
    whatever the query; nothing is searched. *)
Theorem GoogleSearch_key_not_configured (self_config : gmap string value)
    (query : string) (num_results : Z) (safe_search : bool) :
  (self_config !! "api_key" = None
   \/ (exists v, self_config !! "api_key" = Some v /\ truthy_value v = false)
   \/ (exists rest, self_config !! "api_key" = Some (VStr ("${" +:+ rest)))) ->
  GoogleSearch.execute self_config query num_results safe_search
  = ([GoogleSearch.tool_line WARNING "Google Search API key not configured" []],
     {[ "success" := VBool false;
        "error" := VStr "Google Search API key not configured";
        "data" := VList [] ]}).
Proof.
  unfold GoogleSearch.execute.
  intros [-> | [(v & -> & Hv) | (rest & ->)]].
  - reflexivity.
  - change (default VNone (Some v)) with v. by rewrite Hv.
  - destruct rest; reflexivity.
Qed.

Lemma GoogleSearch_key_not_configured_witness :
  (GoogleSearch.execute {[ "api_key" := VStr "${GOOGLE_API_KEY}" ]} "rocq" 3 true).2
  = GoogleSearch.failure "Google Search API key not configured".
Proof.
  rewrite (GoogleSearch_key_not_configured {[ "api_key" := VStr "${GOOGLE_API_KEY}" ]}
             "rocq" 3 true); [reflexivity |].
  right. right. by exists "GOOGLE_API_KEY}".
Defined.

(** X17.  [GoogleSearch.execute] with a key (a non-empty string that does
    not begin with "${") and an integer [max_results] (5 when the config has
    none): the call succeeds and returns exactly
    [min(num_results, max_results)] results, numbered from 1, so never more
    than [max_results] and none at all when the minimum is zero or
    negative; the [num_results] it reports is that minimum, even when it is
    negative. *)
Theorem GoogleSearch_result_count (self_config : gmap string value)
    (query key : string) (num_results max_results : Z) (safe_search : bool) :
  self_config !! "api_key" = Some (VStr key) ->
  key <> "" ->
  startswith "${" key = false ->
  default (VInt 5) (self_config !! "max_results") = VInt max_results ->
  exists items,
    (GoogleSearch.execute self_config query num_results safe_search).2
    = {[ "success" := VBool true;
         "query" := VStr query;
         "num_results" := VInt (Z.min num_results max_results);
         "data" := VList items ]}
    /\ items = GoogleSearch.result_item query
                 <$> seq 0 (Z.to_nat (Z.min num_results max_results))
    /\ length items = Z.to_nat (Z.min num_results max_results)
    /\ (0 <= max_results -> (Z.of_nat (length items) <= max_results)%Z)
    /\ (Z.min num_results max_results <= 0 -> items = []).
Proof.
  intros Hkey Hne Hp Hmax. unfold GoogleSearch.execute.
  rewrite Hkey, Hmax. change (default VNone (Some (VStr key))) with (VStr key).
  cbv beta iota zeta. rewrite Hp. cbn [truthy_value].
  assert (String.eqb key "" = false) as -> by (by apply String.eqb_neq).
  cbn [negb GoogleSearch.min_results].
  assert ((if max_results <? num_results then VInt max_results else VInt num_results)
          = VInt (Z.min num_results max_results)) as ->.
  { destruct (Z.ltb_spec max_results num_results); f_equal; lia. }
  cbn [GoogleSearch.range_length snd].
  eexists. split; [reflexivity |]. split; [reflexivity |].
  rewrite length_fmap, length_seq. split; [done |]. split; [lia |].
  intros Hle. replace (Z.to_nat (Z.min num_results max_results)) with 0%nat by lia. done.
Qed.

Lemma GoogleSearch_result_count_witness :
  exists items,
    (GoogleSearch.execute {[ "api_key" := VStr "k3y" ]} "rocq" 8 true).2
    = {[ "success" := VBool true; "query" := VStr "rocq";
         "num_results" := VInt 5; "data" := VList items ]}
    /\ length items = 5%nat.
Proof.
  destruct (GoogleSearch_result_count {[ "api_key" := VStr "k3y" ]} "rocq" "k3y" 8 5 true)
    as (items & Hr & _ & Hlen & _); try done.
  exists items. split; [exact Hr | exact Hlen].
Defined.

Lemma interpolate_config_lookup_placeholder (env : gmap string string)
    (cfg : gmap string value) (k name : string) :
  cfg !! k = Some (VStr (placeholder name)) ->
  (forall x, env !! name = Some x ->
             Registry.interpolate_config env cfg !! k = Some (VStr x))
  /\ (env !! name = None ->
      Registry.interpolate_config env cfg !! k = Some (VStr (placeholder name))).
Proof.
  intros Hk. unfold Registry.interpolate_config. rewrite lookup_fmap, Hk.
  cbn [fmap option_fmap option_map]. rewrite interpolate_value_placeholder.
  unfold Registry.getenv. split; [intros x -> | intros ->]; done.
Qed.

Lemma GoogleSearch_unconfigured_placeholder (self_config : gmap string value)
    (query : string) (num_results : Z) (safe_search : bool) (rest : string) :
  self_config !! "api_key" = Some (VStr ("${" +:+ rest)) ->
  (GoogleSearch.execute self_config query num_results safe_search).2
  = GoogleSearch.failure "Google Search API key not configured".
Proof.
  intros Hk. unfold GoogleSearch.execute. rewrite Hk. cbn [default].
  destruct rest; reflexivity.
Qed.

(** X18.  The placeholder and the tool fit together: a [GoogleSearch] built
    from a config whose [api_key] is [${NAME}] reports "API key not
    configured" when the variable [NAME] is not set in the environment that
    interpolates the config; when the variable is set to a non-empty string
    that is not itself such a placeholder the call gets past the key check:
    it succeeds, or it fails for another reason. *)
Theorem GoogleSearch_key_from_environment (env : gmap string string)
    (tool_config : gmap string value) (name query : string)
    (num_results : Z) (safe_search : bool) :
  tool_config !! "api_key" = Some (VStr (placeholder name)) ->
  let self_config := Registry.interpolate_config env tool_config in
  (env !! name = None ->
   (GoogleSearch.execute self_config query num_results safe_search).2
   = GoogleSearch.failure "Google Search API key not configured")
  /\ (forall key,
        env !! name = Some key -> key <> "" -> startswith "${" key = false ->
        (GoogleSearch.execute self_config query num_results safe_search).2
          !! "success" = Some (VBool true)
        \/ exists msg,
            (GoogleSearch.execute self_config query num_results safe_search).2
            = GoogleSearch.failure msg
            /\ msg <> "Google Search API key not configured").
Proof.
  intros Hkey self_config.
  destruct (interpolate_config_lookup_placeholder env tool_config "api_key" name Hkey)
    as [Hset Hunset].
  split.
  - intros Hn. specialize (Hunset Hn).
    rewrite (GoogleSearch_unconfigured_placeholder self_config query num_results
               safe_search (String.append name "}")); [done |].
    exact Hunset.
  - intros key Hk Hne Hp. specialize (Hset key Hk).
    unfold GoogleSearch.execute. subst self_config. rewrite Hset.
    change (default VNone (Some (VStr key))) with (VStr key).
    cbv beta iota zeta. rewrite Hp. cbn [truthy_value].
    assert (String.eqb key "" = false) as -> by (by apply String.eqb_neq).
    cbn [negb].
    set (mr := default (VInt 5)
                 (Registry.interpolate_config env tool_config !! "max_results")) in *.
    destruct (GoogleSearch.min_results num_results mr) as [n|e] eqn:Hmin.
    + destruct (GoogleSearch.range_length n) as [len|e] eqn:Hlen.
      * left. reflexivity.
      * right. eexists. split; [reflexivity |].
        unfold GoogleSearch.range_length in Hlen.
        destruct n; simplify_eq; cbn; discriminate.
    + right. eexists. split; [reflexivity |].
      unfold GoogleSearch.min_results in Hmin.
      destruct mr; simplify_eq; cbn; discriminate.
Qed.

Lemma GoogleSearch_key_from_environment_witness :
  (GoogleSearch.execute
     (Registry.interpolate_config ∅ {[ "api_key" := VStr "${GOOGLE_API_KEY}" ]})
     "rocq" 3 true).2
  = GoogleSearch.failure "Google Search API key not configured".
Proof.
  exact (proj1 (GoogleSearch_key_from_environment ∅
                  {[ "api_key" := VStr "${GOOGLE_API_KEY}" ]} "GOOGLE_API_KEY"
                  "rocq" 3 true eq_refl) eq_refl).
Defined.

(** ** The service and the routes *)

Ltac unfold_app :=
  unfold Routes.log, Service.log, Auth.log, app_log_to, Service.on_manager in *.

Lemma bind_execute_tool_None (parameters : list (string * value)) :
  (forall k, k ∈ parameters.*1 -> k <> "self" /\ k <> "tool_name") ->
  Routes.bind_execute_tool parameters = None.
Proof.
  induction parameters as [|[k v] rest IH]; intros Hk; [done |].
  cbn [Routes.bind_execute_tool]. rewrite bool_decide_eq_false_2.
  - apply IH. intros k' Hk'. apply Hk. cbn. apply elem_of_cons. by right.
  - intros Hin. destruct (Hk k) as [H1 H2]; [cbn; apply elem_of_cons; by left |].
    set_solver.
Qed.

Lemma bind_execute_tool_Some (parameters : list (string * value)) (k : string) :
  k ∈ parameters.*1 -> k = "self" \/ k = "tool_name" ->
  exists k', Routes.bind_execute_tool parameters
             = Some {| exn_cls := TypeError;
                       exn_msg := "MCPService.execute_tool() got multiple values for argument '"
                                  +:+ k' +:+ "'" |}
             /\ (k' = "self" \/ k' = "tool_name") /\ k' ∈ parameters.*1.
Proof.
  induction parameters as [|[k0 v] rest IH]; intros Hin Hk; [by apply elem_of_nil in Hin |].
  cbn [Routes.bind_execute_tool].
  destruct (bool_decide (k0 ∈ ["self"; "tool_name"])) eqn:Hk0.
  - apply bool_decide_eq_true in Hk0. exists k0. split; [done |]. split.
    + set_solver.
    + cbn. apply elem_of_cons. by left.
  - apply bool_decide_eq_false in Hk0. cbn in Hin.
    apply elem_of_cons in Hin as [-> | Hin]; [set_solver |].
    destruct (IH Hin Hk) as (k' & Hb & Hk' & Hin'). exists k'. split; [done |].
    split; [done |]. cbn. apply elem_of_cons. by right.
Qed.

(** X19.  [GET /tools/{tool_name}] answers 404 exactly when the registry
    document does not declare the tool or gives it an empty description;
    for a declared tool with a description it answers 200 with the name, the
    description and the schema, whether the tool is enabled or not: a
    disabled tool is reported as found.  The manager is not changed. *)
Theorem get_tool_route (s : Service.MCPService) (h : heap) (name : string) :
  ((tools (config (registry (Service.tool_manager s))) !! name = None
    \/ exists tc, tools (config (registry (Service.tool_manager s))) !! name = Some tc
                  /\ description tc = "") ->
   exists s',
     Routes.get_tool name s h
     = (Ok (Routes.HTTPException 404 ("Tool '" +:+ name +:+ "' not found or not enabled")),
        s', h)
     /\ Service.tool_manager s' = Service.tool_manager s)
  /\ (forall tc,
        tools (config (registry (Service.tool_manager s))) !! name = Some tc ->
        description tc <> "" ->
        exists s',
          Routes.get_tool name s h
          = (Ok (Routes.JSONResponse 200
                   {[ "success" := VBool true;
                      "tool" := VDict
                        {[ "name" := VStr name;
                           "description" := VStr (description tc);
                           "schema" := VDict (Manager._get_tool_schema
                                                (Service.tool_manager s) name) ]} ]}),
             s', h)
          /\ Service.tool_manager s' = Service.tool_manager s).
Proof.
  unfold Routes.get_tool, Service.get_tool_info, Manager.get_tool_description,
    Registry.get_tool_description.
  unfold_app. unfold_m. cbn [Service.tool_manager]. split.
  - intros [Hn | (tc & Ht & Hd)].
    + rewrite Hn. eexists. split; reflexivity.
    + rewrite Ht, Hd. eexists. split; reflexivity.
  - intros tc Ht Hd. rewrite Ht.
    assert (String.eqb (description tc) "" = false) as -> by (by apply String.eqb_neq).
    eexists. split; reflexivity.
Qed.

Lemma get_tool_route_witness :
  exists s',
    Routes.get_tool "current_date"
      {| Service.tool_manager := disabled_manager; Service.app_log := [] |} empty_heap
    = (Ok (Routes.JSONResponse 200
             {[ "success" := VBool true;
                "tool" := VDict {[ "name" := VStr "current_date";
                                   "description" := VStr "d";
                                   "schema" := VDict ∅ ]} ]}),
       s', empty_heap).
Proof.
  destruct (proj2 (get_tool_route
                     {| Service.tool_manager := disabled_manager; Service.app_log := [] |}
                     empty_heap "current_date")
                  {| enabled := false; description := "d"; tc_config := ∅ |}
                  eq_refl ltac:(discriminate)) as (s' & Hg & _).
  by exists s'.
Defined.

Lemma service_execute_tool (w : World) (name : string) (kwargs : gmap string value)
    (s : Service.MCPService) (h : heap) :
  exists res m' h',
    Manager.execute_tool w name kwargs (Service.tool_manager s) h = (Ok res, m', h')
    /\ Service.execute_tool w name kwargs s h
       = (Ok (Service.model_dump res),
          {| Service.tool_manager := m'; Service.app_log := Service.app_log s |}, h').
Proof.
  destruct (execute_tool_never_raises w (Service.tool_manager s) h name kwargs)
    as (res & m' & h' & He).
  exists res, m', h'. split; [exact He |].
  unfold Service.execute_tool. unfold_app. unfold_m. by rewrite He.
Qed.

(** X20.  [POST /tools/{tool_name}/execute] answers 200 whenever the call
    can be made, also when the tool is unknown, disabled or fails: the
    envelope of the manager is the body, with the tool name added (the data
    of a tool is a JSON value here, so the body can always be rendered).  It
    answers 500 exactly when the request parameters contain the key [self]
    or [tool_name], which collide with the positional arguments of the
    call: a [TypeError], and the manager is not reached. *)
Theorem execute_route_status (w : World) (name : string)
    (parameters : list (string * value)) (s : Service.MCPService) (h : heap) :
  ((forall k, k ∈ parameters.*1 -> k <> "self" /\ k <> "tool_name") ->
   exists res m' s' h',
     Manager.execute_tool w name (list_to_map parameters) (Service.tool_manager s) h
     = (Ok res, m', h')
     /\ Routes.execute_tool w name parameters s h
        = (Ok (Routes.JSONResponse 200
                 {[ "success" := VBool (success res);
                    "tool" := VStr name;
                    "data" := data res;
                    "error" := match error res with
                               | Some msg => VStr msg
                               | None => VNone
                               end ]}), s', h')
     /\ Service.tool_manager s' = m')
  /\ (forall k, k ∈ parameters.*1 -> k = "self" \/ k = "tool_name" ->
      exists e s',
        Routes.execute_tool w name parameters s h
        = (Ok (Routes.HTTPException 500 ("Error executing tool: " +:+ exn_msg e)), s', h)
        /\ exn_cls e = TypeError
        /\ Service.tool_manager s' = Service.tool_manager s).
Proof.
  split.
  - intros Hk. apply bind_execute_tool_None in Hk.
    unfold Routes.execute_tool. rewrite Hk. unfold_app. unfold_m.
    match goal with
    | |- context [Service.execute_tool w name ?kw ?s1 h] =>
        destruct (service_execute_tool w name kw s1 h) as (res & m' & h' & He & Hs)
    end.
    rewrite Hs. cbn [Service.tool_manager] in He.
    exists res, m'. eexists _, h'. split; [exact He |]. split; reflexivity.
  - intros k Hin Hk.
    destruct (bind_execute_tool_Some parameters k Hin Hk) as (k' & Hb & Hk' & _).
    unfold Routes.execute_tool. rewrite Hb. unfold_app. unfold_m.
    eexists _, _. split; [reflexivity |]. split; reflexivity.
Qed.

Lemma execute_route_status_witness :
  exists e s',
    Routes.execute_tool current_date_world "current_date"
      [("format", VStr "full"); ("tool_name", VStr "x")]
      {| Service.tool_manager := current_date_manager; Service.app_log := [] |}
      (started_heap 1)
    = (Ok (Routes.HTTPException 500 ("Error executing tool: " +:+ exn_msg e)),
       s', started_heap 1).
Proof.
  destruct (proj2 (execute_route_status current_date_world "current_date"
                     [("format", VStr "full"); ("tool_name", VStr "x")]
                     {| Service.tool_manager := current_date_manager;
                        Service.app_log := [] |} (started_heap 1)) "tool_name")
    as (e & s' & Hr & _).
  - cbn. set_solver.
  - by right.
  - by exists e, s'.
Defined.

(** X21.  [POST /tools/reload-config] answers 200 when the file loads (or is
    absent) and 500 when it cannot be loaded; after a 500 the manager is
    exactly as before, so the old configuration keeps serving. *)
Theorem reload_route_status (w : World) (s : Service.MCPService) (h : heap) :
  let p := config_path (registry (Service.tool_manager s)) in
  (forall f e, files w !! p = Some f -> load_error f = Some e ->
     exists s' h',
       Routes.reload_config w s h
       = (Ok (Routes.HTTPException 500 ("Error reloading configuration: " +:+ exn_msg e)),
          s', h')
       /\ Service.tool_manager s' = Service.tool_manager s)
  /\ ((files w !! p = None \/ exists f, files w !! p = Some f /\ load_error f = None) ->
      exists s' h',
        Routes.reload_config w s h
        = (Ok (Routes.JSONResponse 200
                 {[ "success" := VBool true;
                    "message" := VStr "MCP configuration reloaded successfully" ]}),
           s', h')
        /\ _tool_cache (loader (Service.tool_manager s')) = ∅
        /\ _tools (Service.tool_manager s') = None).
Proof.
  intros p. destruct s as [m lg]. cbn [Service.tool_manager] in *.
  unfold Routes.reload_config, Service.reload_configuration, Manager.reload_config,
    Manager.reload_registry, Registry.reload_config, Loader.clear_cache, Manager.set_tools.
  unfold_app. unfold_m. cbn [Service.tool_manager]. fold p. split.
  - intros f e Hf He.
    destruct (load_config_error w p (registry m) h f e Hf He) as [tmpl Hl].
    rewrite Hl. eexists _, _. split; [reflexivity |]. cbn. by destruct m.
  - intros [Hf | (f & Hf & He)].
    + rewrite (load_config_absent w p (registry m) h Hf).
      eexists _, _. split; [reflexivity |]. done.
    + destruct (load_config_ok w p (registry m) h f Hf He) as (v & c & _ & _ & Hl).
      rewrite Hl. eexists _, _. split; [reflexivity |]. done.
Qed.

Lemma reload_route_status_witness :
  exists s' h',
    Routes.reload_config (world_with (NotJson "Expecting value"))
      {| Service.tool_manager := current_date_loaded; Service.app_log := [] |} loaded_heap
    = (Ok (Routes.HTTPException 500 "Error reloading configuration: Expecting value"),
       s', h')
    /\ Service.tool_manager s' = current_date_loaded.
Proof.
  exact (proj1 (reload_route_status (world_with (NotJson "Expecting value"))
                  {| Service.tool_manager := current_date_loaded; Service.app_log := [] |}
                  loaded_heap) _ _ eq_refl eq_refl).
Defined.

(** X22.  [GET /tools/list] always answers 200; the count it reports is the
    number of enabled tools of the held document and the list has that many
    entries; it changes nothing but the log. *)
Theorem list_tools_route (s : Service.MCPService) (h : heap) :
  exists entries s',
    Routes.list_tools s h
    = (Ok (Routes.JSONResponse 200
             {[ "success" := VBool true;
                "count" := VInt (Z.of_nat (size (Registry.get_enabled_tools
                                                   (registry (Service.tool_manager s)))));
                "tools" := VList entries ]}), s', h)
    /\ length entries
       = size (Registry.get_enabled_tools (registry (Service.tool_manager s)))
    /\ Service.tool_manager s' = Service.tool_manager s.
Proof.
  unfold Routes.list_tools, Service.get_available_tools, get_available_tools.
  unfold_app. unfold_m. cbn [Service.tool_manager].
  eexists _, _. split.
  - rewrite length_fmap, length_map_to_list. reflexivity.
  - split; [| reflexivity]. by rewrite !length_fmap, length_map_to_list.
Qed.

(** ** The authentication middleware *)

Lemma is_excluded_route_spec (excluded : list string) (p : string) :
  Auth._is_excluded_route excluded p = true
  <-> exists r, r ∈ excluded /\ startswith r p = true.
Proof.
  induction excluded as [|r rest IH]; cbn [Auth._is_excluded_route].
  - split; [done | intros (r & Hr & _); by apply elem_of_nil in Hr].
  - destruct (String.eqb p r) eqn:Heq; cbn [orb].
    + apply String.eqb_eq in Heq as ->. split; [| done]. intros _.
      exists r. split; [apply elem_of_cons; by left |].
      unfold startswith. clear. induction r as [|c r IH]; [done |].
      cbn [String.prefix]. by destruct (ascii_dec c c).
    + destruct (startswith r p) eqn:Hp.
      * split; [| done]. intros _. exists r. split; [apply elem_of_cons; by left | done].
      * rewrite IH. split.
        -- intros (r' & Hr' & Hp'). exists r'. split; [apply elem_of_cons; by right | done].
        -- intros (r' & Hr' & Hp'). apply elem_of_cons in Hr' as [-> | Hr'].
           ++ congruence.
           ++ by exists r'.
Qed.

Lemma prefix_app (r p : string) :
  String.prefix r p = true -> exists rest, p = r +:+ rest.
Proof.
  revert p. induction r as [|c r IH]; intros p Hp.
  - by exists p.
  - destruct p as [|d p]; [done |]. cbn [String.prefix] in Hp.
    destruct (ascii_dec c d) as [-> |]; [| done].
    destruct (IH p Hp) as [rest ->]. exists rest. by rewrite app_cons.
Qed.

(** X23.  [_is_excluded_route] is a prefix test: a path is excluded from
    authentication exactly when some configured route is a prefix of it
    (the equality test of the loop adds nothing).  So a configured route
    also excludes every path that merely begins with it. *)
Theorem is_excluded_route_prefix (excluded : list string) (p : string) :
  Auth._is_excluded_route excluded p = true
  <-> exists r rest, r ∈ excluded /\ p = r +:+ rest.
Proof.
  rewrite is_excluded_route_spec. split.
  - intros (r & Hr & Hp). exists r. unfold startswith in Hp.
    destruct (prefix_app r p Hp) as [rest ->]. by exists rest.
  - intros (r & rest & Hr & ->). exists r. split; [done |].
    unfold startswith. clear. induction r as [|c r IH].
    + by destruct rest.
    + rewrite app_cons. cbn [String.prefix]. by destruct (ascii_dec c c).
Qed.

Lemma is_excluded_route_prefix_witness :
  Auth._is_excluded_route ["/health"; "/api/v1/auth/login"] "/healthcheck/full" = true.
Proof.
  apply (proj2 (is_excluded_route_prefix ["/health"; "/api/v1/auth/login"]
                  "/healthcheck/full")).
  exists "/health", "check/full". split; [apply elem_of_cons; by left | reflexivity].
Defined.

(** X24.  With the excluded routes that [settings.py] declares, which
    contain ["/"], every path that begins with a slash is public: the
    middleware forwards the request without looking at the
    [Authorization] header, the token or the user, and sets no user. *)
Theorem dispatch_default_routes_all_public (deps : Auth.Deps) (request : Auth.Request)
    (rest : string) (lg : list app_line) (h : heap) :
  Auth.auth_excluded_routes deps = Auth.default_excluded_routes ->
  Auth.path request = String "/" rest ->
  Auth.dispatch deps request lg h
  = (Ok (Auth.CallNext None),
     lg ++ [{| al_logger := "app.middleware.auth_middleware"; al_level := DEBUG;
               al_template := "Public route accessed: {}";
               al_args := [VStr (Auth.path request)] |}],
     h).
Proof.
  intros Hex Hp. unfold Auth.dispatch.
  assert (Auth._is_excluded_route (Auth.auth_excluded_routes deps) (Auth.path request)
          = true) as ->.
  { apply is_excluded_route_spec. exists "/". rewrite Hex, Hp. split.
    - unfold Auth.default_excluded_routes. set_solver.
    - unfold startswith. cbn. by destruct rest. }
  unfold_app. unfold_m. reflexivity.
Qed.

Lemma dispatch_default_routes_all_public_witness :
  Auth.dispatch
    {| Auth.auth_excluded_routes := Auth.default_excluded_routes;
       Auth.get_user_id_from_token := fun _ => Ok VNone;
       Auth.get_by_id := fun _ => Ok None |}
    {| Auth.path := "/api/v1/tools/list"; Auth.authorization := None |} [] empty_heap
  = (Ok (Auth.CallNext None),
     [{| al_logger := "app.middleware.auth_middleware"; al_level := DEBUG;
         al_template := "Public route accessed: {}";
         al_args := [VStr "/api/v1/tools/list"] |}],
     empty_heap).
Proof.
  exact (dispatch_default_routes_all_public
           {| Auth.auth_excluded_routes := Auth.default_excluded_routes;
              Auth.get_user_id_from_token := fun _ => Ok VNone;
              Auth.get_by_id := fun _ => Ok None |}
           {| Auth.path := "/api/v1/tools/list"; Auth.authorization := None |}
           "api/v1/tools/list" [] empty_heap eq_refl eq_refl).
Defined.

(** The token is extracted exactly from a header of two words whose first
    word lower-cases to [bearer]. *)
Lemma bearer_token_spec (hdr token : string) :
  Auth.bearer_token hdr = Some token
  <-> exists scheme, Auth.split_whitespace "" hdr = [scheme; token]
                     /\ lower scheme = "bearer".
Proof.
  unfold Auth.bearer_token.
  destruct (Auth.split_whitespace "" hdr) as [|scheme [|token' [|? ?]]].
  - split; [done | by intros (? & ? & _)].
  - split; [done | by intros (? & ? & _)].
  - destruct (String.eqb (lower scheme) "bearer") eqn:Hs.
    + apply String.eqb_eq in Hs. split.
      * intros [= <-]. by exists scheme.
      * by intros (? & [= <- <-] & _).
    + apply String.eqb_neq in Hs. split; [done |].
      intros (? & [= <- <-] & Hl). done.
  - split; [done | by intros (? & ? & _)].
Qed.

(** X25.  On a route that is not excluded the middleware forwards the
    request with a user exactly when the [Authorization] header splits into
    two words, a scheme that lower-cases to [bearer] and a token, the token
    gives a truthy user id, and the repository has an active user under
    that id; the forwarded user is that one.  It never forwards such a
    request without a user.  A missing or empty header is refused as
    missing, and a non-empty header that is not two words with a bearer
    scheme (any other scheme, a lone word, three words) is refused as of
    invalid format, before the token is looked at. *)
Theorem dispatch_protected (deps : Auth.Deps) (request : Auth.Request)
    (lg : list app_line) (h : heap) :
  Auth._is_excluded_route (Auth.auth_excluded_routes deps) (Auth.path request) = false ->
  (forall u,
     (exists lg', Auth.dispatch deps request lg h = (Ok (Auth.CallNext (Some u)), lg', h))
     <-> exists hdr scheme token uid,
           Auth.authorization request = Some hdr
           /\ Auth.split_whitespace "" hdr = [scheme; token]
           /\ lower scheme = "bearer"
           /\ Auth.get_user_id_from_token deps token = Ok uid
           /\ truthy_value uid = true
           /\ Auth.get_by_id deps uid = Ok (Some u)
           /\ Auth.is_active u = true)
  /\ (forall lg' h', Auth.dispatch deps request lg h <> (Ok (Auth.CallNext None), lg', h'))
  /\ (Auth.authorization request = None \/ Auth.authorization request = Some "" ->
      exists lg',
        Auth.dispatch deps request lg h
        = (Ok (Auth.Unauthorized "Missing authorization header"), lg', h))
  /\ (forall hdr,
        Auth.authorization request = Some hdr -> hdr <> "" ->
        (forall scheme token,
           Auth.split_whitespace "" hdr = [scheme; token] -> lower scheme <> "bearer") ->
        exists lg',
          Auth.dispatch deps request lg h
          = (Ok (Auth.Unauthorized "Invalid authorization header format"), lg', h)).
Proof.
  intros Hex. unfold Auth.dispatch. rewrite Hex. unfold_app. unfold_m.
  assert (Hempty : Auth.bearer_token "" = None) by reflexivity.
  split; [| split; [| split]].
  - intros u. split.
    + intros [lg' Hd].
      destruct (Auth.authorization request) as [hdr|]; [| done].
      destruct (String.eqb hdr "") eqn:Hh; [done |].
      destruct (Auth.bearer_token hdr) as [token|] eqn:Hb; [| done].
      destruct (Auth.get_user_id_from_token deps token) as [uid|e] eqn:Hid; [| done].
      cbn in Hd.
      destruct (truthy_value uid) eqn:Htr; [| done]. cbn in Hd.
      destruct (Auth.get_by_id deps uid) as [[u'|]|e] eqn:Hget; cbn in Hd; [| done | done].
      destruct (Auth.is_active u') eqn:Hact; cbn in Hd; [| done].
      injection Hd as -> _. apply bearer_token_spec in Hb as (scheme & Hsp & Hl).
      exists hdr, scheme, token, uid. done.
    + intros (hdr & scheme & token & uid & -> & Hsp & Hl & Hid & Htr & Hget & Hact).
      assert (Auth.bearer_token hdr = Some token) as Hb
        by (apply bearer_token_spec; by exists scheme).
      assert (String.eqb hdr "" = false) as ->.
      { apply String.eqb_neq. intros ->. congruence. }
      rewrite Hb, Hid. cbn. rewrite Htr. cbn. rewrite Hget. cbn. rewrite Hact. cbn.
      by eexists.
  - intros lg' h'.
    destruct (Auth.authorization request) as [hdr|]; [| done].
    destruct (String.eqb hdr ""); [done |].
    destruct (Auth.bearer_token hdr) as [token|]; [| done].
    destruct (Auth.get_user_id_from_token deps token) as [uid|e]; [| done]. cbn.
    destruct (truthy_value uid); [| done]. cbn.
    destruct (Auth.get_by_id deps uid) as [[u'|]|e]; cbn; [| done | done].
    by destruct (Auth.is_active u').
  - intros [-> | ->]; by eexists.
  - intros hdr -> Hne Hno.
    assert (String.eqb hdr "" = false) as -> by (by apply String.eqb_neq).
    assert (Auth.bearer_token hdr = None) as ->.
    { destruct (Auth.bearer_token hdr) as [token|] eqn:Hb; [| done].
      apply bearer_token_spec in Hb as (scheme & Hsp & Hl). by destruct (Hno _ _ Hsp). }
    by eexists.
Qed.

Lemma dispatch_protected_witness :
  (exists lg',
     Auth.dispatch
       {| Auth.auth_excluded_routes := ["/health"];
          Auth.get_user_id_from_token := fun _ => Ok (VInt 7);
          Auth.get_by_id := fun _ => Ok (Some {| Auth.username := "ann";
                                                Auth.is_active := true |}) |}
       {| Auth.path := "/api/v1/tools/list"; Auth.authorization := Some "Bearer abc" |}
       [] empty_heap
     = (Ok (Auth.CallNext (Some {| Auth.username := "ann"; Auth.is_active := true |})),
        lg', empty_heap))
  /\ (exists lg',
       Auth.dispatch
         {| Auth.auth_excluded_routes := ["/health"];
            Auth.get_user_id_from_token := fun _ => Ok (VInt 7);
            Auth.get_by_id := fun _ => Ok (Some {| Auth.username := "ann";
                                                  Auth.is_active := true |}) |}
         {| Auth.path := "/api/v1/tools/list"; Auth.authorization := Some "Basic abc" |}
         [] empty_heap
       = (Ok (Auth.Unauthorized "Invalid authorization header format"), lg', empty_heap)).
Proof.
  split.
  - apply (proj1 (dispatch_protected
                    {| Auth.auth_excluded_routes := ["/health"];
                       Auth.get_user_id_from_token := fun _ => Ok (VInt 7);
                       Auth.get_by_id := fun _ => Ok (Some {| Auth.username := "ann";
                                                             Auth.is_active := true |}) |}
                    {| Auth.path := "/api/v1/tools/list";
                       Auth.authorization := Some "Bearer abc" |}
                    [] empty_heap eq_refl)).
    exists "Bearer abc", "Bearer", "abc", (VInt 7). repeat split.
  - apply (proj2 (proj2 (proj2 (dispatch_protected
                    {| Auth.auth_excluded_routes := ["/health"];
                       Auth.get_user_id_from_token := fun _ => Ok (VInt 7);
                       Auth.get_by_id := fun _ => Ok (Some {| Auth.username := "ann";
                                                             Auth.is_active := true |}) |}
                    {| Auth.path := "/api/v1/tools/list";
                       Auth.authorization := Some "Basic abc" |}
                    [] empty_heap eq_refl))) "Basic abc" eq_refl).
    + discriminate.
    + intros scheme token Hsp. vm_compute in Hsp. injection Hsp as <- <-.
      vm_compute. discriminate.
Defined.

Lemma append_assoc (a b c : string) : (a +:+ b) +:+ c = a +:+ (b +:+ c).
Proof. induction a as [|x a IH]; [done |]. rewrite !app_cons. by rewrite IH. Qed.

Lemma append_nil_r (a : string) : a +:+ "" = a.
Proof. induction a as [|x a IH]; [done |]. rewrite app_cons. by rewrite IH. Qed.

Lemma has_space_app (a b : string) : has_space (a +:+ b) = has_space a || has_space b.
Proof. unfold has_space. by rewrite chars_app, existsb_app. Qed.

Lemma append_eq_nil (a b : string) : a +:+ b = "" -> a = "" /\ b = "".
Proof. destruct a; [done |]. rewrite app_cons. done. Qed.

(** The words of [split]: none is empty and none holds whitespace. *)
Lemma split_whitespace_words (s cur : string) :
  has_space cur = false ->
  Forall (fun word => word <> "" /\ has_space word = false)
         (Auth.split_whitespace cur s).
Proof.
  revert cur. induction s as [|c s IH]; intros cur Hcur; cbn [Auth.split_whitespace].
  - destruct (String.eqb cur "") eqn:He; [apply Forall_nil_2 |].
    apply Forall_cons_2; [| apply Forall_nil_2]. split; [| done].
    by apply String.eqb_neq.
  - destruct (Auth.isspace c) eqn:Hc.
    + destruct (String.eqb cur "") eqn:He; [by apply IH |].
      apply Forall_cons_2; [| by apply IH]. split; [| done]. by apply String.eqb_neq.
    + apply IH. rewrite has_space_app, Hcur. unfold has_space, chars. cbn.
      by rewrite Hc.
Qed.

(** A run without whitespace, up to the end of the string. *)
Lemma split_whitespace_last (word cur : string) :
  has_space word = false -> cur +:+ word <> "" ->
  Auth.split_whitespace cur word = [cur +:+ word].
Proof.
  revert cur. induction word as [|c word IH]; intros cur Hw Hne;
    cbn [Auth.split_whitespace].
  - rewrite append_nil_r in *. by apply String.eqb_neq in Hne as ->.
  - unfold has_space, chars in Hw. cbn in Hw. apply orb_false_iff in Hw as [Hc Hw].
    rewrite Hc. rewrite IH.
    + by rewrite append_assoc.
    + exact Hw.
    + rewrite append_assoc. intros Heq. apply append_eq_nil in Heq as [_ Heq]. done.
Qed.

(** A run without whitespace, up to a whitespace character. *)
Lemma split_whitespace_word (word cur rest : string) (sp : ascii) :
  has_space word = false -> cur +:+ word <> "" -> Auth.isspace sp = true ->
  Auth.split_whitespace cur (word +:+ String sp rest)
  = (cur +:+ word) :: Auth.split_whitespace "" rest.
Proof.
  revert cur. induction word as [|c word IH]; intros cur Hw Hne Hsp.
  - change ("" +:+ String sp rest) with (String sp rest).
    cbn [Auth.split_whitespace]. rewrite Hsp.
    rewrite append_nil_r in *. by apply String.eqb_neq in Hne as ->.
  - rewrite app_cons. cbn [Auth.split_whitespace].
    unfold has_space, chars in Hw. cbn in Hw. apply orb_false_iff in Hw as [Hc Hw].
    rewrite Hc. rewrite IH.
    + by rewrite append_assoc.
    + exact Hw.
    + rewrite append_assoc. intros Heq. apply append_eq_nil in Heq as [_ Heq]. done.
    + exact Hsp.
Qed.

Lemma lower_not_empty (s : string) : lower s <> "" -> s <> "".
Proof. by intros Hl ->. Qed.

(** X26.  The token the middleware extracts: for a scheme that lower-cases
    to [bearer] and a non-empty token without whitespace, the header
    [scheme token] gives back exactly that token; and whatever token the
    middleware extracts from any header is non-empty and holds no
    whitespace. *)
Theorem bearer_token_round_trip (scheme token : string) :
  (lower scheme = "bearer" -> has_space scheme = false ->
   token <> "" -> has_space token = false ->
   Auth.bearer_token (scheme +:+ " " +:+ token) = Some token)
  /\ (forall hdr, Auth.bearer_token hdr = Some token ->
        token <> "" /\ has_space token = false).
Proof.
  split.
  - intros Hl Hs Ht Hts. unfold Auth.bearer_token.
    change (" " +:+ token) with (String " " token).
    rewrite (split_whitespace_word scheme "" token " " Hs);
      [| change ("" +:+ scheme) with scheme; apply lower_not_empty; by rewrite Hl
       | reflexivity].
    rewrite (split_whitespace_last token "" Hts Ht).
    change ("" +:+ scheme) with scheme. change ("" +:+ token) with token.
    by rewrite Hl.
  - intros hdr Hb. unfold Auth.bearer_token in Hb.
    pose proof (split_whitespace_words hdr "" eq_refl) as Hw.
    destruct (Auth.split_whitespace "" hdr) as [|scheme' [|token' [|? ?]]]; try done.
    destruct (String.eqb (lower scheme') "bearer"); [| done].
    injection Hb as ->. apply Forall_cons_1 in Hw as [_ Hw].
    by apply Forall_cons_1 in Hw as [Hw _].
Qed.

Lemma bearer_token_round_trip_witness :
  Auth.bearer_token ("BEARER" +:+ " " +:+ "abc.def") = Some "abc.def".
Proof.
  exact (proj1 (bearer_token_round_trip "BEARER" "abc.def")
               eq_refl eq_refl ltac:(discriminate) eq_refl).
Defined.
